(** * Electricity bill allocation: the tiered energy cost evaluator and the
      bill breakdown engine of [src/App.tsx] (with the evaluator's copy in
      [src/components/TrendsDashboard.tsx]).

    A JavaScript [number] is modelled as an exact rational ([Q]): the
    properties below are statements of exact arithmetic, rounding of the
    IEEE doubles is outside the model.  Equality of numbers is [Qeq]
    ([==]); where the code returns a literal constant or copies a value,
    the statements use Leibniz equality.  Module [Doubles] holds the two
    functions of the engine once more, over binary64 floats, to evaluate
    them where rounding decides. *)

From Stdlib Require Import ZArith QArith Qminmax Qround Lqa Lia List Bool
  Ascii String DecimalString Permutation Floats Uint63.
Import ListNotations.

Local Open Scope Q_scope.

(** ** Data model ([types.ts], as used by the engine) *)

Record MeterReading : Type := mkMeterReading {
  id : string;
  name : string;
  meterNo : string;
  previous : Q;
  current : Q
}.

Record Slab : Type := mkSlab {
  limit : Q;
  rate : Q
}.

Record TariffConfig : Type := mkTariffConfig {
  slabs : list Slab;
  vatRate : Q;
  demandCharge : Q;
  meterRent : Q;
  bkashCharge : Q
}.

Record BillConfig : Type := mkBillConfig {
  month : string;
  dateGenerated : string;
  includeLateFee : bool;
  includeBkashFee : bool;
  totalBillPayable : Q
}.

Record UserCalculation : Type := mkUserCalculation {
  uc_id : string;
  uc_name : string;
  unitsUsed : Q;
  energyCost : Q;
  fixedCost : Q;
  totalPayable : Q;
  uc_previous : Q;
  uc_current : Q
}.

Record BillCalculationResult : Type := mkBillCalculationResult {
  vatFixed : Q;
  vatDistributed : Q;
  vatTotal : Q;
  lateFee : Q;
  calculatedRate : Q;
  totalUnits : Q;
  userCalculations : list UserCalculation;
  totalCollection : Q
}.

(** ** JavaScript primitives used by the engine *)

(** [a > 0] *)
Definition gt0 (a : Q) : bool := if Qlt_le_dec 0 a then true else false.

(** [a <= 0] *)
Definition le0 (a : Q) : bool := if Qlt_le_dec 0 a then false else true.

(** [Math.min(a, b)] and [Math.max(a, b)] *)
Definition Math_min (a b : Q) : Q := Qmin a b.
Definition Math_max (a b : Q) : Q := Qmax a b.

(** [xs.length] as a number *)
Definition length_num {A : Type} (xs : list A) : Q :=
  inject_Z (Z.of_nat (List.length xs)).

(** The three mutable locals of [calculateEnergyCost]. *)
Record EvalState : Type := mkEvalState {
  remainingUnits : Q;
  energyCostAcc : Q;
  previousLimit : Q
}.

(** One iteration of the [for (const slab of slabs)] body, up to (not
    including) the [break] test. *)
Definition slabStep (slab : Slab) (st : EvalState) : EvalState :=
  let slabSize := limit slab - previousLimit st in
  let unitsInSlab := Math_min (remainingUnits st) slabSize in
  let st1 :=
    if gt0 unitsInSlab
    then mkEvalState (remainingUnits st - unitsInSlab)
                     (energyCostAcc st + unitsInSlab * rate slab)
                     (previousLimit st)
    else st in
  mkEvalState (remainingUnits st1) (energyCostAcc st1) (limit slab).

(** The loop, with its early exit [if (remainingUnits <= 0) break]. *)
Fixpoint slabLoop (ss : list Slab) (st : EvalState) : EvalState :=
  match ss with
  | [] => st
  | slab :: rest =>
      let st' := slabStep slab st in
      if le0 (remainingUnits st') then st' else slabLoop rest st'
  end.

(** The tail of the function: the overflow charge at the last slab's rate.
    [slabs[slabs.length - 1]] is read only under [slabs.length > 0], so the
    lookup cannot miss; the [None] branch keeps the accumulated cost. *)
Definition overflowCharge (ss : list Slab) (st : EvalState) : Q :=
  if gt0 (remainingUnits st) && gt0 (length_num ss)
  then match nth_error ss (List.length ss - 1) with
       | Some lastSlab =>
           let lastRate := rate lastSlab in
           energyCostAcc st + remainingUnits st * lastRate
       | None => energyCostAcc st
       end
  else energyCostAcc st.

(** [calculateEnergyCost], first definition of [src/App.tsx] (lines 29-51). *)
Definition calculateEnergyCost (units : Q) (ss : list Slab) : Q :=
  overflowCharge ss (slabLoop ss (mkEvalState units 0 0)).

(** The two other copies of the evaluator.  Each is transcribed on its own,
    with the three locals threaded as arguments of the loop. *)

Module AppSecond.

(** [for (const slab of slabs) { ... }] of [src/App.tsx], lines 453-463;
    returns the final [(remainingUnits, energyCost)]. *)
Fixpoint loop (ss : list Slab) (remainingUnits energyCost previousLimit : Q)
  : Q * Q :=
  match ss with
  | [] => (remainingUnits, energyCost)
  | slab :: rest =>
      let slabSize := limit slab - previousLimit in
      let unitsInSlab := Math_min remainingUnits slabSize in
      let '(remainingUnits, energyCost) :=
        if gt0 unitsInSlab
        then (remainingUnits - unitsInSlab, energyCost + unitsInSlab * rate slab)
        else (remainingUnits, energyCost) in
      let previousLimit := limit slab in
      if le0 remainingUnits then (remainingUnits, energyCost)
      else loop rest remainingUnits energyCost previousLimit
  end.

(** [calculateEnergyCost], second definition of [src/App.tsx] (lines 448-470). *)
Definition calculateEnergyCost (units : Q) (ss : list Slab) : Q :=
  let '(remainingUnits, energyCost) := loop ss units 0 0 in
  if gt0 remainingUnits && gt0 (length_num ss)
  then match nth_error ss (List.length ss - 1) with
       | Some lastSlab => energyCost + remainingUnits * rate lastSlab
       | None => energyCost
       end
  else energyCost.

End AppSecond.

Module TrendsDashboard.

(** [for (const slab of slabs) { ... }] of
    [src/components/TrendsDashboard.tsx], lines 19-29. *)
Fixpoint loop (ss : list Slab) (remainingUnits energyCost previousLimit : Q)
  : Q * Q :=
  match ss with
  | [] => (remainingUnits, energyCost)
  | slab :: rest =>
      let slabSize := limit slab - previousLimit in
      let unitsInSlab := Math_min remainingUnits slabSize in
      let '(remainingUnits, energyCost) :=
        if gt0 unitsInSlab
        then (remainingUnits - unitsInSlab, energyCost + unitsInSlab * rate slab)
        else (remainingUnits, energyCost) in
      let previousLimit := limit slab in
      if le0 remainingUnits then (remainingUnits, energyCost)
      else loop rest remainingUnits energyCost previousLimit
  end.

(** [calculateEnergyCost] of [src/components/TrendsDashboard.tsx]
    (lines 14-36). *)
Definition calculateEnergyCost (units : Q) (ss : list Slab) : Q :=
  let '(remainingUnits, energyCost) := loop ss units 0 0 in
  if gt0 remainingUnits && gt0 (length_num ss)
  then match nth_error ss (List.length ss - 1) with
       | Some lastSlab => energyCost + remainingUnits * rate lastSlab
       | None => energyCost
       end
  else energyCost.

End TrendsDashboard.

(** ** The bill allocation engine *)

(** The body of [meters.forEach(m => { ... totalSubmeterUnits += ... })]. *)
Definition addSubmeterUnits (totalSubmeterUnits : Q) (m : MeterReading) : Q :=
  let units := current m - previous m in
  totalSubmeterUnits + (if gt0 units then units else 0).

(** The callback of [meters.map(m => { ... })]. *)
Definition userCalculation (calculatedRate fixedCostPerUser : Q)
    (m : MeterReading) : UserCalculation :=
  let units := Math_max 0 (current m - previous m) in
  let userEnergyCost := units * calculatedRate in
  let totalPayable := userEnergyCost + fixedCostPerUser in
  {| uc_id := id m;
     uc_name := name m;
     unitsUsed := units;
     energyCost := userEnergyCost;
     fixedCost := fixedCostPerUser;
     totalPayable := totalPayable;
     uc_previous := previous m;
     uc_current := current m |}.

(** [calculateBillBreakdown] of [src/App.tsx] (lines 53-113). *)
Definition calculateBillBreakdown (config : BillConfig)
    (mainMeter : MeterReading) (meters : list MeterReading)
    (tariffConfig : TariffConfig) : BillCalculationResult :=
  let VAT_RATE := vatRate tariffConfig in
  let DEMAND_CHARGE := demandCharge tariffConfig in
  let METER_RENT := meterRent tariffConfig in
  let mainUnits := Math_max 0 (current mainMeter - previous mainMeter) in
  let energyCostBase := calculateEnergyCost mainUnits (slabs tariffConfig) in
  let fixedBase := DEMAND_CHARGE + METER_RENT in
  let taxableBase := energyCostBase + fixedBase in
  let vatTotal := taxableBase * VAT_RATE in
  let lateFee := if includeLateFee config then vatTotal else 0 in
  let bkash := if includeBkashFee config then bkashCharge tariffConfig else 0 in
  let totalBillCalculated := taxableBase + vatTotal + lateFee + bkash in
  let vatFixed := fixedBase * VAT_RATE in
  let vatDistributed := vatTotal - vatFixed in
  let totalSubmeterUnits := fold_left addSubmeterUnits meters 0 in
  let fixedSharedPool := fixedBase + vatFixed + bkash + lateFee in
  let fixedCostPerUser :=
    if gt0 (length_num meters) then fixedSharedPool / length_num meters else 0 in
  let energySharedPool := energyCostBase + vatDistributed in
  let calculatedRate :=
    if gt0 totalSubmeterUnits then energySharedPool / totalSubmeterUnits else 0 in
  let userCalculations :=
    map (userCalculation calculatedRate fixedCostPerUser) meters in
  {| vatFixed := vatFixed;
     vatDistributed := vatDistributed;
     vatTotal := vatTotal;
     lateFee := lateFee;
     calculatedRate := calculatedRate;
     totalUnits := totalSubmeterUnits;
     userCalculations := userCalculations;
     totalCollection := totalBillCalculated |}.

(** The local constants of [calculateBillBreakdown], one definition per
    [const], so that statements can name them.  Those whose name is also a
    field of the result carry the suffix [_of];
    [calculateBillBreakdown_locals] below ties them to the function. *)

Section Locals.

Variable config : BillConfig.
Variable mainMeter : MeterReading.
Variable meters : list MeterReading.
Variable tariffConfig : TariffConfig.

Definition mainUnits : Q :=
  Math_max 0 (current mainMeter - previous mainMeter).

Definition energyCostBase : Q :=
  calculateEnergyCost mainUnits (slabs tariffConfig).

Definition fixedBase : Q :=
  demandCharge tariffConfig + meterRent tariffConfig.

Definition taxableBase : Q := energyCostBase + fixedBase.

Definition vatTotal_of : Q := taxableBase * vatRate tariffConfig.

Definition lateFee_of : Q :=
  if includeLateFee config then vatTotal_of else 0.

Definition bkash : Q :=
  if includeBkashFee config then bkashCharge tariffConfig else 0.

Definition totalBillCalculated : Q :=
  taxableBase + vatTotal_of + lateFee_of + bkash.

Definition vatFixed_of : Q := fixedBase * vatRate tariffConfig.

Definition vatDistributed_of : Q := vatTotal_of - vatFixed_of.

Definition totalSubmeterUnits : Q := fold_left addSubmeterUnits meters 0.

Definition fixedSharedPool : Q :=
  fixedBase + vatFixed_of + bkash + lateFee_of.

Definition fixedCostPerUser : Q :=
  if gt0 (length_num meters) then fixedSharedPool / length_num meters else 0.

Definition energySharedPool : Q := energyCostBase + vatDistributed_of.

Definition calculatedRate_of : Q :=
  if gt0 totalSubmeterUnits then energySharedPool / totalSubmeterUnits else 0.

End Locals.

(** The clamped consumption of one meter, as the [map] callback derives it. *)
Definition clampedUnits (m : MeterReading) : Q :=
  Math_max 0 (current m - previous m).

(** Sum of a list of numbers, and the sum of the users' [totalPayable]. *)
Definition sumQ (xs : list Q) : Q := fold_right Qplus 0 xs.

Definition sumTotalPayable (r : BillCalculationResult) : Q :=
  sumQ (map totalPayable (userCalculations r)).

(** Slab tables: all rates non-negative, all rates positive, and limits
    ascending from a given lower bound (the previous limit, 0 at the start). *)
Definition ratesNonneg (ss : list Slab) : Prop :=
  Forall (fun s => 0 <= rate s) ss.

Definition ratesPositive (ss : list Slab) : Prop :=
  Forall (fun s => 0 < rate s) ss.

Fixpoint ascendingFrom (lo : Q) (ss : list Slab) : Prop :=
  match ss with
  | [] => True
  | s :: rest => lo <= limit s /\ ascendingFrom (limit s) rest
  end.

(** Ascending by limit, with no condition on the first limit. *)
Definition ascending (ss : list Slab) : Prop :=
  match ss with
  | [] => True
  | s :: rest => ascendingFrom (limit s) rest
  end.

(** The limit of the last slab ([lo] for the empty table). *)
Fixpoint lastLimit (lo : Q) (ss : list Slab) : Q :=
  match ss with
  | [] => lo
  | s :: rest => lastLimit (limit s) rest
  end.

(** The rate of the last slab ([r] for the empty table). *)
Fixpoint lastRate (r : Q) (ss : list Slab) : Q :=
  match ss with
  | [] => r
  | s :: rest => lastRate (rate s) rest
  end.

(** Every tier billed in full at its own rate: the sum over the slabs of
    (limit - previous limit) * rate, the first tier starting at [lo]. *)
Fixpoint fullTiers (lo : Q) (ss : list Slab) : Q :=
  match ss with
  | [] => 0
  | s :: rest => (limit s - lo) * rate s + fullTiers (limit s) rest
  end.

(** The bill the overflow policy describes for [units] beyond the last
    limit: every tier in full, the remainder at the last slab's rate. *)
Definition overflowBill (units : Q) (ss : list Slab) : Q :=
  fullTiers 0 ss + (units - lastLimit 0 ss) * lastRate 0 ss.

(** ** Concrete inputs *)

(** The tariff, readings and flags of the end-to-end example. *)
Definition exampleSlabs : list Slab :=
  [mkSlab 50 4; mkSlab 100 5; mkSlab 99999 6].

Definition exampleTariff : TariffConfig :=
  mkTariffConfig exampleSlabs 0.05 100 50 10.

Definition exampleConfig : BillConfig :=
  mkBillConfig "January" "2024-01-31" false true 0.

Definition exampleMain : MeterReading :=
  mkMeterReading "main" "Main Meter" "0" 0 120.

Definition exampleMeters : list MeterReading :=
  [mkMeterReading "1" "User 1" "1" 0 60; mkMeterReading "2" "User 2" "2" 0 60].

(** Two sub-meters that did not move. *)
Definition idleMeters : list MeterReading :=
  [mkMeterReading "1" "User 1" "1" 60 60; mkMeterReading "2" "User 2" "2" 60 60].

(** A meter read backwards: previous 20, current 10. *)
Definition reversedMeter : MeterReading :=
  mkMeterReading "r" "Reversed" "9" 20 10.

(** A tariff with no slab and no fixed charge, and a bill without fees. *)
Definition emptyTariff : TariffConfig := mkTariffConfig [] 0.05 0 0 0.

Definition plainConfig : BillConfig :=
  mkBillConfig "January" "2024-01-31" false false 0.

Definition mainTen : MeterReading :=
  mkMeterReading "main" "Main Meter" "0" 0 10.

(** A table with a negative rate. *)
Definition negativeRateSlabs : list Slab := [mkSlab 100 (-1)].

(** A table ascending by limit whose first limit is negative. *)
Definition negativeLimitSlabs : list Slab :=
  [mkSlab (-10) 1; mkSlab 5 2; mkSlab 8 3].

(** ** The progressive tariff as a closed formula *)

(** The part of [u] units that falls in each tier, at the tier's rate: tier
    [s] after lower bound [lo] holds min(u, limit) - min(u, lo) units. *)
Fixpoint tierBill (lo u : Q) (ss : list Slab) : Q :=
  match ss with
  | [] => 0
  | s :: rest => (Qmin u (limit s) - Qmin u lo) * rate s + tierBill (limit s) u rest
  end.

(** The tiers, plus whatever exceeds the last limit at the last rate. *)
Definition progressiveBill (u : Q) (ss : list Slab) : Q :=
  tierBill 0 u ss + Qmax 0 (u - lastLimit 0 ss) * lastRate 0 ss.

(** The same table with every rate multiplied by [k]. *)
Definition scaleRates (k : Q) (ss : list Slab) : list Slab :=
  map (fun s => mkSlab (limit s) (k * rate s)) ss.

(** ** More JavaScript primitives *)

(** [Math.round(x)]: the nearest integer, ties towards +infinity. *)
Definition Math_round (x : Q) : Q := inject_Z (Qfloor (x + (1 # 2))).


(** [s.toUpperCase()], on ASCII text: the letters a-z are raised, all other
    characters are kept. *)
Definition upperAscii (c : ascii) : ascii :=
  let n := nat_of_ascii c in
  if (97 <=? n)%nat && (n <=? 122)%nat then ascii_of_nat (n - 32) else c.

Fixpoint toUpperCase (s : string) : string :=
  match s with
  | EmptyString => EmptyString
  | String c rest => String (upperAscii c) (toUpperCase rest)
  end.

(** [xs.indexOf(x)] on an array of strings, counting from [i]; -1 if absent. *)
Fixpoint indexOfFrom (i : Z) (x : string) (xs : list string) : Z :=
  match xs with
  | [] => (-1)%Z
  | y :: rest => if String.eqb y x then i else indexOfFrom (i + 1)%Z x rest
  end.

Definition indexOf (x : string) (xs : list string) : Z := indexOfFrom 0 x xs.

(** [xs.sort(cmp)] on a copy of the array.  The sort is stable: an element
    moves behind another only when the comparator is strictly positive.  It is
    modelled by insertion from the right, which is what every stable sort
    returns when the comparator is a consistent ordering. *)
Fixpoint sortInsert {A : Type} (cmp : A -> A -> Q) (x : A) (xs : list A) : list A :=
  match xs with
  | [] => [x]
  | y :: rest => if gt0 (cmp x y) then y :: sortInsert cmp x rest else x :: y :: rest
  end.

Definition Array_sort {A : Type} (cmp : A -> A -> Q) (xs : list A) : list A :=
  fold_right (sortInsert cmp) [] xs.

(** A JavaScript object (created by an object literal) used as a
    string-keyed map whose values are strings or numbers, as the list of its
    own properties.  [o[k] = v] replaces the value of an existing key and adds
    a missing one, except for the key __proto__: that is the accessor
    inherited from [Object.prototype], whose setter ignores a value that is
    neither an object nor null, so the assignment stores nothing. *)
Inductive JsValue : Type :=
  | JsString (s : string)
  | JsNumber (q : Q).

Definition JsObject : Type := list (string * JsValue).

Fixpoint setOwnProp (k : string) (v : JsValue) (o : JsObject) : JsObject :=
  match o with
  | [] => [(k, v)]
  | (k', v') :: rest =>
      if String.eqb k' k then (k, v) :: rest else (k', v') :: setOwnProp k v rest
  end.

Definition setProp (k : string) (v : JsValue) (o : JsObject) : JsObject :=
  if String.eqb k "__proto__" then o else setOwnProp k v o.

(** The own property [k] of [o], if there is one. *)
Fixpoint getProp (k : string) (o : JsObject) : option JsValue :=
  match o with
  | [] => None
  | (k', v') :: rest => if String.eqb k' k then Some v' else getProp k rest
  end.

(** A [Set] of strings in insertion order: [users.add(x)]. *)
Definition Set_add (users : list string) (x : string) : list string :=
  if existsb (String.eqb x) users then users else users ++ [x].

(** ** Saved bills and the application state ([types.ts], [App.tsx]) *)

Record SavedBill : Type := mkSavedBill {
  sb_id : string;
  savedAt : string;
  sb_config : BillConfig;
  sb_mainMeter : MeterReading;
  sb_meters : list MeterReading
}.

Inductive AppView : Type :=
  | ViewHome | ViewEstimator | ViewHistory | ViewStats | ViewTrends | ViewTariff.

(** The React state of [AppContent] that the handlers below read and set. *)
Record AppState : Type := mkAppState {
  st_config : BillConfig;
  st_mainMeter : MeterReading;
  st_meters : list MeterReading;
  st_history : list SavedBill;
  st_tariffConfig : TariffConfig;
  st_currentView : AppView
}.

Section History.

(** [a.localeCompare(b)] and [new Date(s).getTime()], left to the host. *)
Variable localeCompare : string -> string -> Z.
Variable getTime : string -> Q.

(** The comparator of [sortBills] ([src/App.tsx], lines 21-26). *)
Definition compareBills (a b : SavedBill) : Q :=
  let dateA := dateGenerated (sb_config a) in
  let dateB := dateGenerated (sb_config b) in
  if negb (String.eqb dateA dateB) then inject_Z (localeCompare dateB dateA)
  else getTime (savedAt b) - getTime (savedAt a).

(** [sortBills] ([src/App.tsx], lines 20-27). *)
Definition sortBills (bills : list SavedBill) : list SavedBill :=
  Array_sort compareBills bills.

(** [saveToHistory] ([src/App.tsx], lines 246-253); [nowId] is
    [Date.now().toString()] and [nowIso] is [new Date().toISOString()]. *)
Definition saveToHistory (nowId nowIso : string) (st : AppState) : AppState :=
  let calculationResult :=
    calculateBillBreakdown (st_config st) (st_mainMeter st) (st_meters st)
      (st_tariffConfig st) in
  let updatedConfig :=
    mkBillConfig (month (st_config st)) (dateGenerated (st_config st))
      (includeLateFee (st_config st)) (includeBkashFee (st_config st))
      (totalCollection calculationResult) in
  let newRecord :=
    mkSavedBill nowId nowIso updatedConfig (st_mainMeter st) (st_meters st) in
  let updatedHistory := sortBills (newRecord :: st_history st) in
  mkAppState (st_config st) (st_mainMeter st) (st_meters st) updatedHistory
    (st_tariffConfig st) (st_currentView st).

End History.

(** [loadFromHistory] ([src/App.tsx], lines 282-289); [confirmed] is the
    answer of [window.confirm]. *)
Definition loadFromHistory (confirmed : bool) (record : SavedBill)
    (st : AppState) : AppState :=
  if confirmed
  then mkAppState (sb_config record) (sb_mainMeter record) (sb_meters record)
         (st_history st) (st_tariffConfig st) ViewHome
  else st.

(** The [onDelete] callback of the history view ([src/App.tsx], line 298). *)
Definition deleteBill (id_ : string) (st : AppState) : AppState :=
  let h := filter (fun h => negb (String.eqb (sb_id h) id_)) (st_history st) in
  mkAppState (st_config st) (st_mainMeter st) (st_meters st) h
    (st_tariffConfig st) (st_currentView st).


Definition monthNames : list string :=
  ["January"; "February"; "March"; "April"; "May"; "June"; "July"; "August";
   "September"; "October"; "November"; "December"]%string.

(** The month that follows [m] in [handleNextMonth]. *)
Definition nextMonthOf (m : string) : string :=
  let currentIndex := indexOf m monthNames in
  nth (Z.to_nat (Z.rem (currentIndex + 1) 12)) monthNames ""%string.

(** The roll-over of one reading: [{ ...m, previous: m.current }]. *)
Definition rollOver (m : MeterReading) : MeterReading :=
  mkMeterReading (id m) (name m) (meterNo m) (current m) (current m).

(** [handleNextMonth] ([src/App.tsx], lines 255-280); [confirmed] is the
    answer of [window.confirm] and [today] is
    [new Date().toISOString().split('T')[0]]. *)
Definition handleNextMonth (confirmed : bool) (today : string)
    (st : AppState) : AppState :=
  if confirmed
  then
    let nextMonth := nextMonthOf (month (st_config st)) in
    mkAppState
      (mkBillConfig nextMonth today (includeLateFee (st_config st))
         (includeBkashFee (st_config st)) (totalBillPayable (st_config st)))
      (rollOver (st_mainMeter st))
      (map rollOver (st_meters st))
      (st_history st) (st_tariffConfig st) ViewHome
  else st.

(** ** The splitter view ([src/components/Dashboard.tsx]) *)

(** A key of [MeterReading] together with a value of the key's type, for
    [{ ...m, [key]: value }]. *)
Inductive MeterUpdate : Type :=
  | SetId (v : string)
  | SetName (v : string)
  | SetMeterNo (v : string)
  | SetPrevious (v : Q)
  | SetCurrent (v : Q).

Definition applyUpdate (m : MeterReading) (u : MeterUpdate) : MeterReading :=
  match u with
  | SetId v => mkMeterReading v (name m) (meterNo m) (previous m) (current m)
  | SetName v => mkMeterReading (id m) v (meterNo m) (previous m) (current m)
  | SetMeterNo v => mkMeterReading (id m) (name m) v (previous m) (current m)
  | SetPrevious v => mkMeterReading (id m) (name m) (meterNo m) v (current m)
  | SetCurrent v => mkMeterReading (id m) (name m) (meterNo m) (previous m) v
  end.

Module Dashboard.

Section Derived.

Variable config : BillConfig.
Variable result : BillCalculationResult.
Variable mainMeter : MeterReading.
Variable meters : list MeterReading.
Variable tariffConfig : TariffConfig.

(** Lines 494-501 of [src/components/Dashboard.tsx]. *)
Definition mainUnits : Q :=
  Math_max 0 (current mainMeter - previous mainMeter).

Definition totalSubUnits : Q :=
  fold_left (fun acc m => acc + Math_max 0 (current m - previous m)) meters 0.

Definition systemLoss : Q := Math_max 0 (mainUnits - totalSubUnits).

Definition bkashFee : Q :=
  if includeBkashFee config then bkashCharge tariffConfig else 0.

Definition baseBill : Q := totalCollection result - lateFee result - bkashFee.

Definition totalSharedFixedCosts : Q :=
  demandCharge tariffConfig + meterRent tariffConfig + vatFixed result
  + lateFee result + bkashFee.

Definition fixedCostPerUser : Q :=
  if gt0 (length_num meters)
  then totalSharedFixedCosts / length_num meters
  else 0.

(** [userSubtotal] of the splitter view in [src/unnamed/part_001]
    (lines 39-41). *)
Definition userSubtotal : Q :=
  fold_left (fun acc u => acc + totalPayable u) (userCalculations result) 0.

End Derived.

(** [handleMeterChange] (lines 507-509): the list handed to
    [onUpdateMeters]. *)
Definition handleMeterChange (id_ : string) (u : MeterUpdate)
    (meters : list MeterReading) : list MeterReading :=
  map (fun m => if String.eqb (id m) id_ then applyUpdate m u else m) meters.

(** [handleConfirmDelete] (lines 530-536): the list handed to
    [onUpdateMeters], or [None] when the handler does nothing. *)
Definition handleConfirmDelete (meterToDelete : option MeterReading)
    (confirmText : string) (meters : list MeterReading)
  : option (list MeterReading) :=
  match meterToDelete with
  | Some target =>
      if String.eqb (toUpperCase confirmText) "DELETE"
      then Some (filter (fun m => negb (String.eqb (id m) (id target))) meters)
      else None
  | None => None
  end.

End Dashboard.

(** ** The trends view ([src/components/TrendsDashboard.tsx]) *)

Module TrendsChart.

(** The body of the second [bill.meters.forEach] of [chartData]
    (lines 80-90): the state is the data point and [monthSum]. *)
Definition chartMeter (calculatedRate fixedCostPerUser : Q)
    (acc : JsObject * Q) (m : MeterReading) : JsObject * Q :=
  let '(dataPoint, monthSum) := acc in
  let units := Math_max 0 (current m - previous m) in
  let userEnergyCost := units * calculatedRate in
  let totalPayable := userEnergyCost + fixedCostPerUser in
  let roundedTotal := Math_round totalPayable in
  let dataPoint := setProp (name m) (JsNumber units) dataPoint in
  let dataPoint :=
    setProp (name m ++ "_cost") (JsNumber roundedTotal) dataPoint in
  (dataPoint, monthSum + roundedTotal).

(** The callback of [sortedData.map] in [chartData] (lines 48-92). *)
Definition chartPoint (tariffConfig : TariffConfig) (bill : SavedBill) : JsObject :=
  let dataPoint : JsObject :=
    [("name", JsString (substring 0 3 (month (sb_config bill))));
     ("fullMonth", JsString (month (sb_config bill)));
     ("amount", JsNumber (totalBillPayable (sb_config bill)));
     ("date", JsString (dateGenerated (sb_config bill)));
     ("monthTotal", JsNumber 0)]%string in
  let mainUnits :=
    Math_max 0 (current (sb_mainMeter bill) - previous (sb_mainMeter bill)) in
  let energyCostBase :=
    TrendsDashboard.calculateEnergyCost mainUnits (slabs tariffConfig) in
  let fixedBase := demandCharge tariffConfig + meterRent tariffConfig in
  let taxableBase := energyCostBase + fixedBase in
  let vatTotal := taxableBase * vatRate tariffConfig in
  let lateFee := if includeLateFee (sb_config bill) then vatTotal else 0 in
  let bkash :=
    if includeBkashFee (sb_config bill) then bkashCharge tariffConfig else 0 in
  let vatFixed := fixedBase * vatRate tariffConfig in
  let vatDistributed := vatTotal - vatFixed in
  let totalSubmeterUnits := fold_left addSubmeterUnits (sb_meters bill) 0 in
  let fixedSharedPool := fixedBase + vatFixed + bkash + lateFee in
  let fixedCostPerUser :=
    if gt0 (length_num (sb_meters bill))
    then fixedSharedPool / length_num (sb_meters bill) else 0 in
  let energySharedPool := energyCostBase + vatDistributed in
  let calculatedRate :=
    if gt0 totalSubmeterUnits then energySharedPool / totalSubmeterUnits else 0 in
  let '(dataPoint, monthSum) :=
    fold_left (chartMeter calculatedRate fixedCostPerUser) (sb_meters bill)
      (dataPoint, 0) in
  setProp "monthTotal" (JsNumber monthSum) dataPoint.

(** [uniqueUsers] (lines 96-102): the names in the order of first
    appearance. *)
Definition uniqueUsers (history : list SavedBill) : list string :=
  fold_left
    (fun users bill => fold_left (fun users m => Set_add users (name m))
                         (sb_meters bill) users)
    history [].

End TrendsChart.

(** The rounded payables of a result, as the trends view adds them up. *)
Definition sumRoundedPayable (r : BillCalculationResult) : Q :=
  sumQ (map (fun uc => Math_round (totalPayable uc)) (userCalculations r)).

(** ** The engine in IEEE doubles

    The same two functions of [src/App.tsx] with a JavaScript [number] as a
    binary64 float, every operation rounding as the code's does.  It serves
    to evaluate the code on concrete inputs where rounding decides. *)

Module Doubles.

Record MeterReading : Type := mkMeterReading {
  id : string;
  name : string;
  meterNo : string;
  previous : float;
  current : float
}.

Record Slab : Type := mkSlab {
  limit : float;
  rate : float
}.

Record TariffConfig : Type := mkTariffConfig {
  slabs : list Slab;
  vatRate : float;
  demandCharge : float;
  meterRent : float;
  bkashCharge : float
}.

Record BillConfig : Type := mkBillConfig {
  month : string;
  dateGenerated : string;
  includeLateFee : bool;
  includeBkashFee : bool;
  totalBillPayable : float
}.

Record UserCalculation : Type := mkUserCalculation {
  uc_id : string;
  uc_name : string;
  unitsUsed : float;
  energyCost : float;
  fixedCost : float;
  totalPayable : float;
  uc_previous : float;
  uc_current : float
}.

Record BillCalculationResult : Type := mkBillCalculationResult {
  vatFixed : float;
  vatDistributed : float;
  vatTotal : float;
  lateFee : float;
  calculatedRate : float;
  totalUnits : float;
  userCalculations : list UserCalculation;
  totalCollection : float
}.

(** [a > 0] and [a <= 0]; both are false on NaN. *)
Definition gt0 (a : float) : bool := PrimFloat.ltb 0%float a.
Definition le0 (a : float) : bool := PrimFloat.leb a 0%float.

(** [Math.min(a, b)] and [Math.max(a, b)]: NaN if an argument is NaN, and
    -0 counts as smaller than +0. *)
Definition Math_min (a b : float) : float :=
  if is_nan a || is_nan b then nan
  else if PrimFloat.ltb a b then a
  else if PrimFloat.ltb b a then b
  else if get_sign a then a else b.

Definition Math_max (a b : float) : float :=
  if is_nan a || is_nan b then nan
  else if PrimFloat.ltb a b then b
  else if PrimFloat.ltb b a then a
  else if get_sign a then b else a.

(** [xs.length] as a number. *)
Definition length_num {A : Type} (xs : list A) : float :=
  PrimFloat.of_uint63 (Uint63.of_Z (Z.of_nat (List.length xs))).

Record EvalState : Type := mkEvalState {
  remainingUnits : float;
  energyCostAcc : float;
  previousLimit : float
}.

Definition slabStep (slab : Slab) (st : EvalState) : EvalState :=
  let slabSize := (limit slab - previousLimit st)%float in
  let unitsInSlab := Math_min (remainingUnits st) slabSize in
  let st1 :=
    if gt0 unitsInSlab
    then mkEvalState (remainingUnits st - unitsInSlab)%float
                     (energyCostAcc st + unitsInSlab * rate slab)%float
                     (previousLimit st)
    else st in
  mkEvalState (remainingUnits st1) (energyCostAcc st1) (limit slab).

Fixpoint slabLoop (ss : list Slab) (st : EvalState) : EvalState :=
  match ss with
  | [] => st
  | slab :: rest =>
      let st' := slabStep slab st in
      if le0 (remainingUnits st') then st' else slabLoop rest st'
  end.

Definition overflowCharge (ss : list Slab) (st : EvalState) : float :=
  if gt0 (remainingUnits st) && gt0 (length_num ss)
  then match nth_error ss (List.length ss - 1) with
       | Some lastSlab =>
           let lastRate := rate lastSlab in
           (energyCostAcc st + remainingUnits st * lastRate)%float
       | None => energyCostAcc st
       end
  else energyCostAcc st.

(** [calculateEnergyCost] ([src/App.tsx], lines 29-51). *)
Definition calculateEnergyCost (units : float) (ss : list Slab) : float :=
  overflowCharge ss (slabLoop ss (mkEvalState units 0 0)).

Definition addSubmeterUnits (totalSubmeterUnits : float) (m : MeterReading)
  : float :=
  let units := (current m - previous m)%float in
  (totalSubmeterUnits + (if gt0 units then units else 0))%float.

Definition userCalculation (calculatedRate fixedCostPerUser : float)
    (m : MeterReading) : UserCalculation :=
  let units := Math_max 0 (current m - previous m) in
  let userEnergyCost := (units * calculatedRate)%float in
  let totalPayable := (userEnergyCost + fixedCostPerUser)%float in
  {| uc_id := id m;
     uc_name := name m;
     unitsUsed := units;
     energyCost := userEnergyCost;
     fixedCost := fixedCostPerUser;
     totalPayable := totalPayable;
     uc_previous := previous m;
     uc_current := current m |}.

(** The constant [fixedSharedPool] of [calculateBillBreakdown] (line 81). *)
Definition fixedSharedPool (config : BillConfig) (mainMeter : MeterReading)
    (tariffConfig : TariffConfig) : float :=
  let mainUnits := Math_max 0 (current mainMeter - previous mainMeter) in
  let energyCostBase := calculateEnergyCost mainUnits (slabs tariffConfig) in
  let fixedBase := (demandCharge tariffConfig + meterRent tariffConfig)%float in
  let taxableBase := (energyCostBase + fixedBase)%float in
  let vatTotal := (taxableBase * vatRate tariffConfig)%float in
  let lateFee := if includeLateFee config then vatTotal else 0%float in
  let bkash :=
    if includeBkashFee config then bkashCharge tariffConfig else 0%float in
  let vatFixed := (fixedBase * vatRate tariffConfig)%float in
  (fixedBase + vatFixed + bkash + lateFee)%float.

(** [calculateBillBreakdown] ([src/App.tsx], lines 53-113). *)
Definition calculateBillBreakdown (config : BillConfig)
    (mainMeter : MeterReading) (meters : list MeterReading)
    (tariffConfig : TariffConfig) : BillCalculationResult :=
  let VAT_RATE := vatRate tariffConfig in
  let DEMAND_CHARGE := demandCharge tariffConfig in
  let METER_RENT := meterRent tariffConfig in
  let mainUnits := Math_max 0 (current mainMeter - previous mainMeter) in
  let energyCostBase := calculateEnergyCost mainUnits (slabs tariffConfig) in
  let fixedBase := (DEMAND_CHARGE + METER_RENT)%float in
  let taxableBase := (energyCostBase + fixedBase)%float in
  let vatTotal := (taxableBase * VAT_RATE)%float in
  let lateFee := if includeLateFee config then vatTotal else 0%float in
  let bkash :=
    if includeBkashFee config then bkashCharge tariffConfig else 0%float in
  let totalBillCalculated := (taxableBase + vatTotal + lateFee + bkash)%float in
  let vatFixed := (fixedBase * VAT_RATE)%float in
  let vatDistributed := (vatTotal - vatFixed)%float in
  let totalSubmeterUnits := fold_left addSubmeterUnits meters 0%float in
  let fixedSharedPool := (fixedBase + vatFixed + bkash + lateFee)%float in
  let fixedCostPerUser :=
    if gt0 (length_num meters)
    then (fixedSharedPool / length_num meters)%float else 0%float in
  let energySharedPool := (energyCostBase + vatDistributed)%float in
  let calculatedRate :=
    if gt0 totalSubmeterUnits
    then (energySharedPool / totalSubmeterUnits)%float else 0%float in
  let userCalculations :=
    map (userCalculation calculatedRate fixedCostPerUser) meters in
  {| vatFixed := vatFixed;
     vatDistributed := vatDistributed;
     vatTotal := vatTotal;
     lateFee := lateFee;
     calculatedRate := calculatedRate;
     totalUnits := totalSubmeterUnits;
     userCalculations := userCalculations;
     totalCollection := totalBillCalculated |}.

(** The users' [totalPayable] added up from left to right, starting at 0. *)
Definition sumTotalPayable (r : BillCalculationResult) : float :=
  fold_left (fun acc u => (acc + totalPayable u)%float) (userCalculations r)
    0%float.

(** The tariff, flags and main meter of the end-to-end example, and seven
    sub-meters that did not move. *)
Definition exampleTariff : TariffConfig :=
  mkTariffConfig [mkSlab 50 4; mkSlab 100 5; mkSlab 99999 6] 0.05 100 50 10.

Definition exampleConfig : BillConfig :=
  mkBillConfig "January" "2024-01-31" false true 0.

Definition exampleMain : MeterReading :=
  mkMeterReading "main" "Main Meter" "0" 0 120.

Definition idleMeter (n : string) : MeterReading :=
  mkMeterReading n n n 60 60.

Definition sevenIdleMeters : list MeterReading :=
  map idleMeter ["1"; "2"; "3"; "4"; "5"; "6"; "7"]%string.

End Doubles.

(** * Properties *)

(** ** The comparison and min/max primitives *)

Lemma gt0_true (a : Q) : gt0 a = true <-> 0 < a.
Proof.
  unfold gt0. destruct (Qlt_le_dec 0 a) as [H | H]; split; intro K;
    try reflexivity; try assumption; try discriminate.
  exfalso. apply (Qlt_irrefl 0). apply Qlt_le_trans with a; assumption.
Qed.

Lemma gt0_false (a : Q) : gt0 a = false <-> a <= 0.
Proof.
  unfold gt0. destruct (Qlt_le_dec 0 a) as [H | H]; split; intro K;
    try reflexivity; try assumption; try discriminate.
  exfalso. apply (Qlt_irrefl 0). apply Qlt_le_trans with a; assumption.
Qed.

Lemma le0_negb (a : Q) : le0 a = negb (gt0 a).
Proof. unfold le0, gt0. destruct (Qlt_le_dec 0 a); reflexivity. Qed.

Lemma le0_true (a : Q) : le0 a = true <-> a <= 0.
Proof.
  rewrite le0_negb, negb_true_iff. apply gt0_false.
Qed.

Lemma le0_false (a : Q) : le0 a = false <-> 0 < a.
Proof.
  rewrite le0_negb, negb_false_iff. apply gt0_true.
Qed.

Lemma Math_min_cases (a b : Q) :
  (a < b /\ Math_min a b == a) \/ (b <= a /\ Math_min a b == b).
Proof. unfold Math_min. apply Q.min_spec. Qed.

Lemma Math_max_cases (a b : Q) :
  (a < b /\ Math_max a b == b) \/ (b <= a /\ Math_max a b == a).
Proof. unfold Math_max. apply Q.max_spec. Qed.

(** [Math.max(0, d)] for a negative [d] is the literal 0. *)
Lemma Math_max_0_neg (d : Q) : d < 0 -> Math_max 0 d = 0.
Proof.
  intro H. unfold Math_max, Qmax, GenericMinMax.gmax.
  destruct (0 ?= d) eqn:E; try reflexivity.
  apply Qlt_alt in E. exfalso. lra.
Qed.

(** The test-and-clamp of the [forEach] body agrees with [Math.max(0, _)]. *)
Lemma clamp_forms (d : Q) : (if gt0 d then d else 0) == Math_max 0 d.
Proof.
  destruct (Math_max_cases 0 d) as [[H E] | [H E]]; rewrite E;
    destruct (gt0 d) eqn:G; try reflexivity.
  - apply gt0_false in G. lra.
  - apply gt0_true in G. lra.
Qed.

Lemma Math_max_0_nonneg (d : Q) : 0 <= Math_max 0 d.
Proof.
  destruct (Math_max_cases 0 d) as [[H E] | [H E]]; rewrite E; lra.
Qed.

Lemma length_num_nonempty {A : Type} (xs : list A) :
  xs <> [] -> 0 < length_num xs.
Proof.
  intro H. destruct xs as [| x xs]; [congruence |].
  unfold length_num. rewrite <- (Zlt_Qlt 0). simpl List.length. lia.
Qed.

Lemma length_num_cons {A : Type} (x : A) (xs : list A) :
  length_num (x :: xs) == 1 + length_num xs.
Proof.
  unfold length_num. simpl List.length.
  rewrite Nat2Z.inj_succ, <- Z.add_1_l, inject_Z_plus. reflexivity.
Qed.

(** ** The evaluator's loop *)

(** What one iteration does to the three locals. *)
Lemma slabStep_cases (slab : Slab) (st : EvalState) :
  let unitsInSlab := Math_min (remainingUnits st) (limit slab - previousLimit st) in
  previousLimit (slabStep slab st) = limit slab /\
  ((0 < unitsInSlab /\
    remainingUnits (slabStep slab st) = remainingUnits st - unitsInSlab /\
    energyCostAcc (slabStep slab st) = energyCostAcc st + unitsInSlab * rate slab)
   \/
   (unitsInSlab <= 0 /\
    remainingUnits (slabStep slab st) = remainingUnits st /\
    energyCostAcc (slabStep slab st) = energyCostAcc st)).
Proof.
  unfold slabStep. cbv zeta.
  destruct (gt0 (Math_min (remainingUnits st) (limit slab - previousLimit st))) eqn:G;
    cbn [remainingUnits energyCostAcc previousLimit]; split; try reflexivity.
  - left. apply gt0_true in G. auto.
  - right. apply gt0_false in G. auto.
Qed.

Lemma slabLoop_cons (slab : Slab) (rest : list Slab) (st : EvalState) :
  slabLoop (slab :: rest) st =
  if le0 (remainingUnits (slabStep slab st)) then slabStep slab st
  else slabLoop rest (slabStep slab st).
Proof. reflexivity. Qed.

(** The threaded-argument loops of the two other copies compute the same
    final [remainingUnits] and [energyCost] as [slabLoop]. *)
Lemma AppSecond_loop_slabLoop (ss : list Slab) (r e p : Q) :
  AppSecond.loop ss r e p =
  (remainingUnits (slabLoop ss (mkEvalState r e p)),
   energyCostAcc (slabLoop ss (mkEvalState r e p))).
Proof.
  revert r e p. induction ss as [| slab rest IH]; intros r e p.
  - reflexivity.
  - rewrite slabLoop_cons. unfold slabStep.
    cbn [AppSecond.loop remainingUnits energyCostAcc previousLimit].
    destruct (gt0 (Math_min r (limit slab - p)));
      cbn [remainingUnits energyCostAcc previousLimit];
      match goal with |- context [le0 ?x] => destruct (le0 x) end;
      try reflexivity; apply IH.
Qed.

Lemma TrendsDashboard_loop_slabLoop (ss : list Slab) (r e p : Q) :
  TrendsDashboard.loop ss r e p =
  (remainingUnits (slabLoop ss (mkEvalState r e p)),
   energyCostAcc (slabLoop ss (mkEvalState r e p))).
Proof.
  revert r e p. induction ss as [| slab rest IH]; intros r e p.
  - reflexivity.
  - rewrite slabLoop_cons. unfold slabStep.
    cbn [TrendsDashboard.loop remainingUnits energyCostAcc previousLimit].
    destruct (gt0 (Math_min r (limit slab - p)));
      cbn [remainingUnits energyCostAcc previousLimit];
      match goal with |- context [le0 ?x] => destruct (le0 x) end;
      try reflexivity; apply IH.
Qed.

(** The last slab, as [slabs[slabs.length - 1]] reads it. *)
Lemma nth_error_last (s : Slab) (rest : list Slab) (l0 r0 : Q) :
  exists lastSlab,
    nth_error (s :: rest) (List.length (s :: rest) - 1) = Some lastSlab /\
    limit lastSlab = lastLimit l0 (s :: rest) /\
    rate lastSlab = lastRate r0 (s :: rest) /\
    In lastSlab (s :: rest).
Proof.
  revert s l0 r0. induction rest as [| s' rest IH]; intros s l0 r0.
  - exists s. cbn. auto.
  - destruct (IH s' (limit s) (rate s)) as [x [Hn [Hl [Hr Hi]]]].
    exists x. repeat split; try assumption.
    + replace (List.length (s :: s' :: rest) - 1)%nat
        with (S (List.length (s' :: rest) - 1)) by (cbn [List.length]; lia).
      exact Hn.
    + right. exact Hi.
Qed.

(** The function's tail, by cases on the two tests. *)
Lemma overflowCharge_none (ss : list Slab) (st : EvalState) :
  remainingUnits st <= 0 -> overflowCharge ss st = energyCostAcc st.
Proof.
  intro H. unfold overflowCharge. apply gt0_false in H. rewrite H. reflexivity.
Qed.

Lemma overflowCharge_some (s : Slab) (rest : list Slab) (st : EvalState) :
  0 < remainingUnits st ->
  overflowCharge (s :: rest) st =
  energyCostAcc st + remainingUnits st * lastRate 0 (s :: rest).
Proof.
  intro H. unfold overflowCharge. apply gt0_true in H. rewrite H.
  assert (L : gt0 (length_num (s :: rest)) = true).
  { apply gt0_true. apply length_num_nonempty. discriminate. }
  rewrite L. cbn [andb].
  destruct (nth_error_last s rest 0 0) as [x [Hn [_ [Hr _]]]].
  rewrite Hn. cbv zeta. rewrite Hr. reflexivity.
Qed.

Lemma overflowCharge_nil (st : EvalState) :
  overflowCharge [] st = energyCostAcc st.
Proof.
  unfold overflowCharge. destruct (gt0 (remainingUnits st)); reflexivity.
Qed.

(** Facts about one iteration, in the form the arithmetic needs them: the
    quantity billed in the slab is named [k]. *)
Lemma slabStep_arith (slab : Slab) (st : EvalState) :
  exists k : Q,
    previousLimit (slabStep slab st) = limit slab /\
    remainingUnits (slabStep slab st) == remainingUnits st - k /\
    energyCostAcc (slabStep slab st) == energyCostAcc st + k * rate slab /\
    0 <= k /\
    ((k == remainingUnits st /\ remainingUnits st <= limit slab - previousLimit st)
     \/ (k == limit slab - previousLimit st /\
         limit slab - previousLimit st <= remainingUnits st)
     \/ (k == 0 /\ (remainingUnits st <= 0 \/ limit slab - previousLimit st <= 0))).
Proof.
  destruct (slabStep_cases slab st) as [Hp [[Hk [Hr Hc]] | [Hk [Hr Hc]]]].
  - exists (Math_min (remainingUnits st) (limit slab - previousLimit st)).
    rewrite Hr, Hc. split; [exact Hp |].
    split; [reflexivity |]. split; [reflexivity |]. split; [lra |].
    destruct (Math_min_cases (remainingUnits st) (limit slab - previousLimit st))
      as [[H E] | [H E]].
    + left. split; [exact E | lra].
    + right. left. split; [exact E | exact H].
  - exists 0. rewrite Hr, Hc. split; [exact Hp |].
    split; [lra |]. split; [lra |]. split; [lra |].
    right. right. split; [reflexivity |].
    destruct (Math_min_cases (remainingUnits st) (limit slab - previousLimit st))
      as [[H E] | [H E]]; rewrite E in Hk; [left | right]; exact Hk.
Qed.

(** The remaining units never become negative once they are not. *)
Lemma slabLoop_remaining_nonneg (ss : list Slab) (st : EvalState) :
  0 <= remainingUnits st -> 0 <= remainingUnits (slabLoop ss st).
Proof.
  revert st. induction ss as [| slab rest IH]; intros st H.
  - exact H.
  - rewrite slabLoop_cons.
    destruct (slabStep_arith slab st) as [k [_ [Hr [_ [Hk Hcase]]]]].
    assert (R : 0 <= remainingUnits (slabStep slab st)).
    { rewrite Hr. destruct Hcase as [[E _] | [[E L] | [E _]]]; lra. }
    destruct (le0 (remainingUnits (slabStep slab st))); [exact R | apply IH; exact R].
Qed.

(** With non-negative rates the accumulated cost never decreases. *)
Lemma slabLoop_cost_ge (ss : list Slab) (st : EvalState) :
  ratesNonneg ss -> energyCostAcc st <= energyCostAcc (slabLoop ss st).
Proof.
  revert st. induction ss as [| slab rest IH]; intros st H.
  - cbn. lra.
  - rewrite slabLoop_cons. inversion H as [| x xs Hrate Hrest]; subst.
    destruct (slabStep_arith slab st) as [k [_ [_ [Hc [Hk _]]]]].
    assert (C : energyCostAcc st <= energyCostAcc (slabStep slab st)).
    { rewrite Hc. assert (0 <= k * rate slab) by (apply Qmult_le_0_compat; assumption).
      lra. }
    destruct (le0 (remainingUnits (slabStep slab st))); [exact C |].
    apply Qle_trans with (energyCostAcc (slabStep slab st)); [exact C |].
    apply IH. exact Hrest.
Qed.

(** One iteration is monotone in the remaining units and the cost. *)
Lemma slabStep_mono (slab : Slab) (st1 st2 : EvalState) :
  0 <= rate slab ->
  previousLimit st1 = previousLimit st2 ->
  remainingUnits st1 <= remainingUnits st2 ->
  energyCostAcc st1 <= energyCostAcc st2 ->
  remainingUnits (slabStep slab st1) <= remainingUnits (slabStep slab st2) /\
  energyCostAcc (slabStep slab st1) <= energyCostAcc (slabStep slab st2).
Proof.
  intros Hrate Hp Hr Hc.
  destruct (slabStep_arith slab st1) as [k1 [_ [Hr1 [Hc1 [Hk1 Hcase1]]]]].
  destruct (slabStep_arith slab st2) as [k2 [_ [Hr2 [Hc2 [Hk2 Hcase2]]]]].
  rewrite Hr1, Hr2, Hc1, Hc2. rewrite Hp in Hcase1.
  assert (K : k1 <= k2 /\ remainingUnits st1 - k1 <= remainingUnits st2 - k2).
  { destruct Hcase1 as [[E1 L1] | [[E1 L1] | [E1 [L1 | L1]]]];
    destruct Hcase2 as [[E2 L2] | [[E2 L2] | [E2 [L2 | L2]]]]; split; lra. }
  destruct K as [K1 K2]. split; [exact K2 |].
  assert (k1 * rate slab <= k2 * rate slab) by (apply Qmult_le_compat_r; assumption).
  lra.
Qed.

(** The loop is monotone in the remaining units and the cost. *)
Lemma slabLoop_mono (ss : list Slab) (st1 st2 : EvalState) :
  ratesNonneg ss ->
  previousLimit st1 = previousLimit st2 ->
  remainingUnits st1 <= remainingUnits st2 ->
  energyCostAcc st1 <= energyCostAcc st2 ->
  remainingUnits (slabLoop ss st1) <= remainingUnits (slabLoop ss st2) /\
  energyCostAcc (slabLoop ss st1) <= energyCostAcc (slabLoop ss st2).
Proof.
  revert st1 st2. induction ss as [| slab rest IH]; intros st1 st2 H Hp Hr Hc.
  - cbn. split; assumption.
  - inversion H as [| x xs Hrate Hrest]; subst.
    destruct (slabStep_mono slab st1 st2 Hrate Hp Hr Hc) as [Mr Mc].
    assert (P : previousLimit (slabStep slab st1) = previousLimit (slabStep slab st2))
      by reflexivity.
    rewrite !slabLoop_cons.
    destruct (le0 (remainingUnits (slabStep slab st1))) eqn:B1;
      destruct (le0 (remainingUnits (slabStep slab st2))) eqn:B2.
    + split; assumption.
    + apply le0_true in B1. apply le0_false in B2. split.
      * apply Qle_trans with 0; [exact B1 |].
        apply slabLoop_remaining_nonneg. lra.
      * apply Qle_trans with (energyCostAcc (slabStep slab st2)); [exact Mc |].
        apply slabLoop_cost_ge. exact Hrest.
    + apply le0_false in B1. apply le0_true in B2. exfalso. lra.
    + apply IH; assumption.
Qed.

(** Membership in the table gives the sign of the last rate. *)
Lemma lastRate_nonneg (s : Slab) (rest : list Slab) :
  ratesNonneg (s :: rest) -> 0 <= lastRate 0 (s :: rest).
Proof.
  intro H. destruct (nth_error_last s rest 0 0) as [x [_ [_ [Hr Hi]]]].
  rewrite <- Hr. unfold ratesNonneg in H. rewrite Forall_forall in H.
  apply H. exact Hi.
Qed.

Lemma lastRate_pos (s : Slab) (rest : list Slab) :
  ratesPositive (s :: rest) -> 0 < lastRate 0 (s :: rest).
Proof.
  intro H. destruct (nth_error_last s rest 0 0) as [x [_ [_ [Hr Hi]]]].
  rewrite <- Hr. unfold ratesPositive in H. rewrite Forall_forall in H.
  apply H. exact Hi.
Qed.

(** ** Ascending tables and consumption beyond the last limit *)

Lemma lastLimit_ge (ss : list Slab) (lo : Q) :
  ascendingFrom lo ss -> lo <= lastLimit lo ss.
Proof.
  revert lo. induction ss as [| s rest IH]; intros lo H.
  - cbn. lra.
  - destruct H as [H1 H2]. cbn [lastLimit].
    apply Qle_trans with (limit s); [exact H1 | apply IH; exact H2].
Qed.

(** When the consumption reaches beyond the last limit, the loop never takes
    its early exit: it bills every tier in full and leaves the excess. *)
Lemma slabLoop_ascending (ss : list Slab) (st : EvalState) :
  ascendingFrom (previousLimit st) ss ->
  lastLimit (previousLimit st) ss < previousLimit st + remainingUnits st ->
  remainingUnits (slabLoop ss st)
    == previousLimit st + remainingUnits st - lastLimit (previousLimit st) ss /\
  energyCostAcc (slabLoop ss st)
    == energyCostAcc st + fullTiers (previousLimit st) ss.
Proof.
  revert st. induction ss as [| s rest IH]; intros st Hasc Hlast.
  - cbn. split; lra.
  - destruct Hasc as [H1 H2]. cbn [lastLimit fullTiers] in *.
    pose proof (lastLimit_ge rest (limit s) H2) as G.
    destruct (slabStep_arith s st) as [k [Hp [Hr [Hc [Hk Hcase]]]]].
    assert (K : k == limit s - previousLimit st).
    { destruct Hcase as [[E L] | [[E L] | [E [L | L]]]]; lra. }
    rewrite slabLoop_cons.
    assert (B : le0 (remainingUnits (slabStep s st)) = false).
    { apply le0_false. rewrite Hr. lra. }
    rewrite B.
    destruct (IH (slabStep s st)) as [IHr IHc].
    + rewrite Hp. exact H2.
    + rewrite Hp, Hr. lra.
    + rewrite Hp in IHr, IHc. rewrite IHr, IHc, Hr, Hc, K. split; ring.
Qed.

(** The overflow policy, for tables ascending from 0. *)
Lemma calculateEnergyCost_overflow (units : Q) (ss : list Slab) :
  ss <> [] -> ascendingFrom 0 ss -> lastLimit 0 ss < units ->
  calculateEnergyCost units ss == overflowBill units ss.
Proof.
  intros Hne Hasc Hlast. destruct ss as [| s rest]; [congruence |].
  unfold calculateEnergyCost, overflowBill.
  destruct (slabLoop_ascending (s :: rest) (mkEvalState units 0 0)) as [Hr Hc];
    cbn [remainingUnits energyCostAcc previousLimit] in *;
    [exact Hasc | lra |].
  rewrite overflowCharge_some by (rewrite Hr; lra).
  rewrite Hr, Hc. ring.
Qed.

(** ** Positive consumption costs something under positive rates *)

Lemma slabLoop_positive (ss : list Slab) (st : EvalState) :
  ratesPositive ss ->
  0 <= remainingUnits st -> 0 <= energyCostAcc st ->
  0 < energyCostAcc st \/ 0 < remainingUnits st ->
  0 <= energyCostAcc (slabLoop ss st) /\
  (0 < energyCostAcc (slabLoop ss st) \/ 0 < remainingUnits (slabLoop ss st)).
Proof.
  revert st. induction ss as [| s rest IH]; intros st H Hr Hc Hor.
  - cbn. split; assumption.
  - inversion H as [| x xs Hrate Hrest]; subst. rewrite slabLoop_cons.
    destruct (slabStep_arith s st) as [k [_ [Er [Ec [Hk Hcase]]]]].
    assert (P : 0 <= k * rate s) by (apply Qmult_le_0_compat; lra).
    assert (S1 : 0 <= remainingUnits (slabStep s st)).
    { rewrite Er. destruct Hcase as [[E L] | [[E L] | [E L]]]; lra. }
    assert (S2 : 0 <= energyCostAcc (slabStep s st)) by (rewrite Ec; lra).
    assert (S3 : 0 < energyCostAcc (slabStep s st)
                 \/ 0 < remainingUnits (slabStep s st)).
    { destruct (Qlt_le_dec 0 k) as [Kp | Kz].
      - left. rewrite Ec.
        assert (0 < k * rate s) by (apply Qmult_lt_0_compat; assumption). lra.
      - assert (k == 0) by lra.
        destruct Hor as [Hor | Hor].
        + left. rewrite Ec. lra.
        + right. rewrite Er. lra. }
    destruct (le0 (remainingUnits (slabStep s st))) eqn:B.
    + split; [exact S2 | exact S3].
    + apply IH; assumption.
Qed.

Lemma calculateEnergyCost_nonneg (units : Q) (ss : list Slab) :
  ratesNonneg ss -> 0 <= calculateEnergyCost units ss.
Proof.
  intro H. unfold calculateEnergyCost.
  pose proof (slabLoop_cost_ge ss (mkEvalState units 0 0) H) as C.
  cbn [energyCostAcc] in C.
  set (f := slabLoop ss (mkEvalState units 0 0)) in *.
  destruct ss as [| s rest]; [rewrite overflowCharge_nil; exact C |].
  destruct (Qlt_le_dec 0 (remainingUnits f)) as [R | R].
  - rewrite overflowCharge_some by assumption.
    pose proof (lastRate_nonneg s rest H) as L.
    assert (0 <= remainingUnits f * lastRate 0 (s :: rest))
      by (apply Qmult_le_0_compat; lra).
    lra.
  - rewrite overflowCharge_none by assumption. exact C.
Qed.

Lemma calculateEnergyCost_positive (units : Q) (ss : list Slab) :
  ss <> [] -> ratesPositive ss -> 0 < units ->
  0 < calculateEnergyCost units ss.
Proof.
  intros Hne H Hu. destruct ss as [| s rest]; [congruence |].
  unfold calculateEnergyCost.
  destruct (slabLoop_positive (s :: rest) (mkEvalState units 0 0) H) as [C Hor];
    cbn [remainingUnits energyCostAcc]; try lra.
  set (f := slabLoop (s :: rest) (mkEvalState units 0 0)) in *.
  destruct (Qlt_le_dec 0 (remainingUnits f)) as [R | R].
  - rewrite overflowCharge_some by assumption.
    pose proof (lastRate_pos s rest H) as L.
    assert (0 < remainingUnits f * lastRate 0 (s :: rest))
      by (apply Qmult_lt_0_compat; assumption).
    lra.
  - rewrite overflowCharge_none by assumption.
    destruct Hor as [Hor | Hor]; [exact Hor | exfalso; lra].
Qed.

(** No consumption costs nothing, whatever the table. *)
Lemma calculateEnergyCost_0 (units : Q) (ss : list Slab) :
  units <= 0 -> calculateEnergyCost units ss = 0.
Proof.
  intro Hu. unfold calculateEnergyCost. destruct ss as [| s rest].
  - rewrite overflowCharge_nil. reflexivity.
  - rewrite slabLoop_cons.
    destruct (slabStep_cases s (mkEvalState units 0 0)) as [_ [[Hk _] | [_ [Hr Hc]]]];
      cbn [remainingUnits energyCostAcc previousLimit] in *.
    + exfalso.
      destruct (Math_min_cases units (limit s - 0)) as [[L E] | [L E]];
        rewrite E in Hk; lra.
    + assert (B : le0 (remainingUnits (slabStep s (mkEvalState units 0 0))) = true)
        by (apply le0_true; rewrite Hr; exact Hu).
      rewrite B. rewrite overflowCharge_none by (rewrite Hr; exact Hu).
      exact Hc.
Qed.

(** ** The engine's result in terms of its local constants *)

Lemma calculateBillBreakdown_locals (config : BillConfig)
    (mainMeter : MeterReading) (meters : list MeterReading)
    (tariffConfig : TariffConfig) :
  calculateBillBreakdown config mainMeter meters tariffConfig =
  {| vatFixed := vatFixed_of tariffConfig;
     vatDistributed := vatDistributed_of mainMeter tariffConfig;
     vatTotal := vatTotal_of mainMeter tariffConfig;
     lateFee := lateFee_of config mainMeter tariffConfig;
     calculatedRate := calculatedRate_of mainMeter meters tariffConfig;
     totalUnits := totalSubmeterUnits meters;
     userCalculations :=
       map (userCalculation (calculatedRate_of mainMeter meters tariffConfig)
              (fixedCostPerUser config mainMeter meters tariffConfig)) meters;
     totalCollection := totalBillCalculated config mainMeter tariffConfig |}.
Proof. reflexivity. Qed.

(** The total splits into the energy pool and the fixed pool. *)
Lemma totalBillCalculated_pools (config : BillConfig)
    (mainMeter : MeterReading) (tariffConfig : TariffConfig) :
  totalBillCalculated config mainMeter tariffConfig ==
  energySharedPool mainMeter tariffConfig
  + fixedSharedPool config mainMeter tariffConfig.
Proof.
  unfold totalBillCalculated, energySharedPool, fixedSharedPool,
    vatDistributed_of, taxableBase. ring.
Qed.

Lemma sumQ_cons (x : Q) (xs : list Q) : sumQ (x :: xs) = x + sumQ xs.
Proof. reflexivity. Qed.

Lemma addSubmeterUnits_clamped (acc : Q) (m : MeterReading) :
  addSubmeterUnits acc m == acc + clampedUnits m.
Proof.
  unfold addSubmeterUnits, clampedUnits. cbv zeta.
  rewrite clamp_forms. reflexivity.
Qed.

Lemma fold_addSubmeterUnits (meters : list MeterReading) (acc : Q) :
  fold_left addSubmeterUnits meters acc
  == acc + sumQ (map clampedUnits meters).
Proof.
  revert acc. induction meters as [| m rest IH]; intro acc.
  - cbn. ring.
  - cbn [fold_left map]. rewrite sumQ_cons, IH, addSubmeterUnits_clamped. ring.
Qed.

Lemma totalSubmeterUnits_sum (meters : list MeterReading) :
  totalSubmeterUnits meters == sumQ (map clampedUnits meters).
Proof.
  unfold totalSubmeterUnits. rewrite fold_addSubmeterUnits. ring.
Qed.

Lemma sum_clampedUnits_nonneg (meters : list MeterReading) :
  0 <= sumQ (map clampedUnits meters).
Proof.
  induction meters as [| m rest IH].
  - cbn. lra.
  - cbn [map]. rewrite sumQ_cons.
    pose proof (Math_max_0_nonneg (current m - previous m)) as H.
    unfold clampedUnits at 1. lra.
Qed.

(** The total clamped consumption is never negative, so that "not strictly
    positive" and "equal to 0" are the same condition on it. *)
Lemma totalSubmeterUnits_nonneg (meters : list MeterReading) :
  0 <= totalSubmeterUnits meters.
Proof.
  rewrite totalSubmeterUnits_sum. apply sum_clampedUnits_nonneg.
Qed.

(** The users' payables add up to rate * units + count * fixed share. *)
Lemma sum_totalPayable (rate_ fixed_ : Q) (meters : list MeterReading) :
  sumQ (map totalPayable (map (userCalculation rate_ fixed_) meters))
  == rate_ * sumQ (map clampedUnits meters) + length_num meters * fixed_.
Proof.
  induction meters as [| m rest IH].
  - change (0 == rate_ * 0 + 0 * fixed_). ring.
  - cbn [map]. rewrite !sumQ_cons, IH, length_num_cons.
    unfold userCalculation, clampedUnits. cbn [totalPayable]. ring.
Qed.

Lemma share_times_count (pool n : Q) : 0 < n -> n * (pool / n) == pool.
Proof. intro H. field. lra. Qed.

Lemma rate_times_units (pool total : Q) :
  0 < total -> (pool / total) * total == pool.
Proof. intro H. field. lra. Qed.

(** The fixed share when there is at least one sub-meter. *)
Lemma fixedCostPerUser_nonempty (config : BillConfig)
    (mainMeter : MeterReading) (meters : list MeterReading)
    (tariffConfig : TariffConfig) :
  meters <> [] ->
  fixedCostPerUser config mainMeter meters tariffConfig =
  fixedSharedPool config mainMeter tariffConfig / length_num meters.
Proof.
  intro H. unfold fixedCostPerUser.
  assert (G : gt0 (length_num meters) = true)
    by (apply gt0_true, length_num_nonempty, H).
  rewrite G. reflexivity.
Qed.

(** The sum of the users' payables, for a non-empty list of sub-meters. *)
Lemma sumTotalPayable_nonempty (config : BillConfig)
    (mainMeter : MeterReading) (meters : list MeterReading)
    (tariffConfig : TariffConfig) :
  meters <> [] ->
  sumTotalPayable (calculateBillBreakdown config mainMeter meters tariffConfig)
  == calculatedRate_of mainMeter meters tariffConfig * totalSubmeterUnits meters
     + fixedSharedPool config mainMeter tariffConfig.
Proof.
  intro H. rewrite calculateBillBreakdown_locals.
  unfold sumTotalPayable. cbn [userCalculations].
  rewrite sum_totalPayable, fixedCostPerUser_nonempty by exact H.
  rewrite share_times_count by (apply length_num_nonempty; exact H).
  rewrite totalSubmeterUnits_sum. reflexivity.
Qed.

(** * The claims *)

(** C1 - Reconciliation invariant: for a non-empty list of sub-meters whose
    total clamped consumption is strictly positive, the users' [totalPayable]
    add up to [totalCollection], in exact arithmetic. *)
Theorem reconciliation_invariant (config : BillConfig)
    (mainMeter : MeterReading) (meters : list MeterReading)
    (tariffConfig : TariffConfig) :
  meters <> [] ->
  0 < totalUnits (calculateBillBreakdown config mainMeter meters tariffConfig) ->
  sumTotalPayable (calculateBillBreakdown config mainMeter meters tariffConfig)
  == totalCollection (calculateBillBreakdown config mainMeter meters tariffConfig).
Proof.
  intros Hne Hpos. rewrite sumTotalPayable_nonempty by exact Hne.
  rewrite calculateBillBreakdown_locals in *. cbn [totalUnits totalCollection] in *.
  rewrite totalBillCalculated_pools. unfold calculatedRate_of.
  assert (G : gt0 (totalSubmeterUnits meters) = true) by (apply gt0_true; exact Hpos).
  rewrite G, rate_times_units by exact Hpos. reflexivity.
Qed.

Lemma reconciliation_invariant_witness :
  sumTotalPayable
    (calculateBillBreakdown exampleConfig exampleMain exampleMeters exampleTariff)
  == totalCollection
    (calculateBillBreakdown exampleConfig exampleMain exampleMeters exampleTariff).
Proof.
  apply (reconciliation_invariant exampleConfig exampleMain exampleMeters
           exampleTariff).
  - discriminate.
  - vm_compute. reflexivity.
Defined.

(** C2 - End-to-end worked example: the figures the engine produces on the
    three-slab tariff, a main meter at 120 units and two sub-meters at 60. *)
Theorem worked_example :
  let r :=
    calculateBillBreakdown exampleConfig exampleMain exampleMeters exampleTariff in
  energyCostBase exampleMain exampleTariff == 570 /\
  vatTotal r == 36 /\
  totalCollection r == 766 /\
  totalUnits r == 120 /\
  vatFixed r == 7.5 /\
  vatDistributed r == 28.5 /\
  fixedCostPerUser exampleConfig exampleMain exampleMeters exampleTariff == 83.75 /\
  Forall (fun uc => fixedCost uc == 83.75) (userCalculations r) /\
  calculatedRate r == 4.9875 /\
  List.length (userCalculations r) = 2%nat /\
  Forall (fun uc => totalPayable uc == 383) (userCalculations r) /\
  sumTotalPayable r == 766 /\
  sumTotalPayable r == totalCollection r.
Proof.
  cbv zeta.
  repeat match goal with |- _ /\ _ => split end;
    try (vm_compute; reflexivity);
    repeat constructor; vm_compute; reflexivity.
Qed.

(** C4 - Late fee duplication: the late fee of the result is the result's
    total VAT when [includeLateFee] is set, and 0 when it is not. *)
Theorem late_fee_duplication (config : BillConfig)
    (mainMeter : MeterReading) (meters : list MeterReading)
    (tariffConfig : TariffConfig) :
  lateFee (calculateBillBreakdown config mainMeter meters tariffConfig) =
  if includeLateFee config
  then vatTotal (calculateBillBreakdown config mainMeter meters tariffConfig)
  else 0.
Proof. reflexivity. Qed.

(** C7 - Slab boundary exactness: with a non-negative first limit, the cost of
    exactly that many units is limit * rate of the first slab; the loop stops
    after the first tier with nothing remaining, so that the later slabs and
    the overflow rule contribute nothing (the table need not be ascending). *)
Theorem slab_boundary_exactness (s : Slab) (rest : list Slab) :
  0 <= limit s ->
  calculateEnergyCost (limit s) (s :: rest) == limit s * rate s /\
  slabLoop (s :: rest) (mkEvalState (limit s) 0 0)
    = slabStep s (mkEvalState (limit s) 0 0) /\
  remainingUnits (slabLoop (s :: rest) (mkEvalState (limit s) 0 0)) == 0 /\
  calculateEnergyCost (limit s) (s :: rest) = calculateEnergyCost (limit s) [s].
Proof.
  intro H. set (st := mkEvalState (limit s) 0 0).
  destruct (slabStep_arith s st) as [k [_ [Hr [Hc [Hk Hcase]]]]].
  cbn [remainingUnits energyCostAcc previousLimit st] in Hr, Hc, Hcase.
  assert (K : k == limit s).
  { destruct Hcase as [[E L] | [[E L] | [E [L | L]]]]; lra. }
  assert (R : remainingUnits (slabStep s st) == 0) by (rewrite Hr, K; ring).
  assert (B : le0 (remainingUnits (slabStep s st)) = true)
    by (apply le0_true; rewrite R; lra).
  assert (L : slabLoop (s :: rest) st = slabStep s st)
    by (rewrite slabLoop_cons, B; reflexivity).
  assert (L1 : slabLoop [s] st = slabStep s st)
    by (rewrite slabLoop_cons, B; reflexivity).
  unfold calculateEnergyCost. fold st. rewrite L, L1.
  rewrite !overflowCharge_none by (rewrite R; lra).
  repeat split; try assumption.
  rewrite Hc, K. ring.
Qed.

Lemma slab_boundary_exactness_witness :
  calculateEnergyCost 50 exampleSlabs == 50 * 4.
Proof.
  apply (slab_boundary_exactness (mkSlab 50 4) [mkSlab 100 5; mkSlab 99999 6]).
  vm_compute. discriminate.
Defined.

(** C9 - Duplicate definitions: the second definition of
    [calculateEnergyCost] in App.tsx and the copy in TrendsDashboard.tsx
    return, on every input, what the first definition returns. *)
Theorem evaluator_copies_agree (units : Q) (ss : list Slab) :
  AppSecond.calculateEnergyCost units ss = calculateEnergyCost units ss /\
  TrendsDashboard.calculateEnergyCost units ss = calculateEnergyCost units ss.
Proof.
  unfold AppSecond.calculateEnergyCost, TrendsDashboard.calculateEnergyCost.
  rewrite AppSecond_loop_slabLoop, TrendsDashboard_loop_slabLoop.
  split; reflexivity.
Qed.

(** C3 (as stated) fails: with no slab and no fixed charge the main meter
    moved by 10 units, yet the total to collect is 0. *)
Lemma zero_submeters_total_can_vanish :
  0 < mainUnits mainTen /\
  totalCollection (calculateBillBreakdown plainConfig mainTen [] emptyTariff) == 0.
Proof. split; vm_compute; reflexivity. Qed.

(** C3 - Zero-sub-meter degradation, amended: with no sub-meter the engine
    returns [totalUnits = 0], no user row, [calculatedRate = 0] and a fixed
    share of 0; [totalCollection] is the figure computed from the main meter
    and the tariff, the same for every list of sub-meters; it is strictly
    positive when the main meter consumed something, provided the slab table
    is non-empty with positive rates and the VAT rate and the three charges
    are non-negative. *)
Theorem zero_submeter_degradation (config : BillConfig)
    (mainMeter : MeterReading) (tariffConfig : TariffConfig) :
  let r := calculateBillBreakdown config mainMeter [] tariffConfig in
  totalUnits r = 0 /\
  userCalculations r = [] /\
  calculatedRate r = 0 /\
  fixedCostPerUser config mainMeter [] tariffConfig = 0 /\
  totalCollection r = totalBillCalculated config mainMeter tariffConfig /\
  (forall meters : list MeterReading,
     totalCollection (calculateBillBreakdown config mainMeter meters tariffConfig)
     = totalCollection r) /\
  (slabs tariffConfig <> [] -> ratesPositive (slabs tariffConfig) ->
   0 <= vatRate tariffConfig -> 0 <= demandCharge tariffConfig ->
   0 <= meterRent tariffConfig -> 0 <= bkashCharge tariffConfig ->
   0 < mainUnits mainMeter ->
   0 < totalCollection r).
Proof.
  cbv zeta. repeat split; try reflexivity.
  intros Hne Hrates Hvat Hdem Hrent Hbk Hmain.
  rewrite calculateBillBreakdown_locals. cbn [totalCollection].
  pose proof (calculateEnergyCost_positive (mainUnits mainMeter)
                (slabs tariffConfig) Hne Hrates Hmain) as E.
  fold (energyCostBase mainMeter tariffConfig) in E.
  unfold totalBillCalculated, lateFee_of, bkash, vatTotal_of, taxableBase, fixedBase.
  set (e := energyCostBase mainMeter tariffConfig) in *.
  assert (V : 0 <= (e + (demandCharge tariffConfig + meterRent tariffConfig))
                   * vatRate tariffConfig)
    by (apply Qmult_le_0_compat; lra).
  destruct (includeLateFee config); destruct (includeBkashFee config); lra.
Qed.

Lemma zero_submeter_degradation_witness :
  0 < totalCollection
        (calculateBillBreakdown exampleConfig exampleMain [] exampleTariff).
Proof.
  apply (zero_submeter_degradation exampleConfig exampleMain exampleTariff).
  - discriminate.
  - repeat constructor.
  - vm_compute. discriminate.
  - vm_compute. discriminate.
  - vm_compute. discriminate.
  - vm_compute. discriminate.
  - vm_compute. reflexivity.
Defined.

(** C5 (as stated) fails: under a negative rate one unit costs more than
    two. *)
Lemma negative_rate_not_monotone :
  1 <= 2 /\
  ~ calculateEnergyCost 1 negativeRateSlabs <= calculateEnergyCost 2 negativeRateSlabs.
Proof.
  split.
  - vm_compute. discriminate.
  - intro H. vm_compute in H. apply H. reflexivity.
Qed.

(** C5 - Slab monotonicity, amended: for a slab table whose rates are all
    non-negative, the cost is non-decreasing in the units. *)
Theorem slab_monotonicity (ss : list Slab) (u1 u2 : Q) :
  ratesNonneg ss -> u1 <= u2 ->
  calculateEnergyCost u1 ss <= calculateEnergyCost u2 ss.
Proof.
  intros H Hu. unfold calculateEnergyCost.
  destruct (slabLoop_mono ss (mkEvalState u1 0 0) (mkEvalState u2 0 0) H)
    as [Mr Mc]; try reflexivity; cbn [remainingUnits energyCostAcc]; try lra.
  destruct ss as [| s rest].
  - rewrite !overflowCharge_nil. exact Mc.
  - pose proof (lastRate_nonneg s rest H) as L.
    set (f1 := slabLoop (s :: rest) (mkEvalState u1 0 0)) in *.
    set (f2 := slabLoop (s :: rest) (mkEvalState u2 0 0)) in *.
    destruct (Qlt_le_dec 0 (remainingUnits f1)) as [R1 | R1];
      destruct (Qlt_le_dec 0 (remainingUnits f2)) as [R2 | R2].
    + rewrite !overflowCharge_some by assumption.
      assert (remainingUnits f1 * lastRate 0 (s :: rest)
              <= remainingUnits f2 * lastRate 0 (s :: rest))
        by (apply Qmult_le_compat_r; assumption).
      lra.
    + exfalso. lra.
    + rewrite (overflowCharge_none _ f1) by assumption.
      rewrite overflowCharge_some by assumption.
      assert (0 <= remainingUnits f2 * lastRate 0 (s :: rest))
        by (apply Qmult_le_0_compat; lra).
      lra.
    + rewrite !overflowCharge_none by assumption. exact Mc.
Qed.

Lemma slab_monotonicity_witness :
  calculateEnergyCost 60 exampleSlabs <= calculateEnergyCost 120 exampleSlabs.
Proof.
  apply (slab_monotonicity exampleSlabs 60 120).
  - repeat constructor; vm_compute; discriminate.
  - vm_compute. discriminate.
Defined.

(** C6 (as stated) fails: on a table ascending by limit whose first limit is
    negative, 10 units exceed the last limit 8, yet all 10 are billed in the
    second tier (cost 20): nothing is billed at the last slab's rate. *)
Lemma negative_first_limit_overflow :
  negativeLimitSlabs <> [] /\
  ascending negativeLimitSlabs /\
  lastLimit 0 negativeLimitSlabs < 10 /\
  calculateEnergyCost 10 negativeLimitSlabs == 20 /\
  ~ calculateEnergyCost 10 negativeLimitSlabs == overflowBill 10 negativeLimitSlabs.
Proof.
  split; [discriminate |].
  split; [cbn; split; [| split]; try exact I; vm_compute; discriminate |].
  split; [vm_compute; reflexivity |].
  split; [vm_compute; reflexivity |].
  intro H. vm_compute in H. discriminate H.
Qed.

(** C6 - Overflow policy, amended: for a non-empty slab table ascending by
    limit whose first limit is non-negative, and units beyond the last limit,
    the cost is every tier in full at its own rate plus the excess over the
    last limit at the last slab's rate; in particular 150 units on the single
    slab (100, 5) cost 100*5 + 50*5 = 750. *)
Theorem overflow_policy (units : Q) (s : Slab) (rest : list Slab) :
  0 <= limit s ->
  ascending (s :: rest) ->
  lastLimit 0 (s :: rest) < units ->
  calculateEnergyCost units (s :: rest) == overflowBill units (s :: rest) /\
  calculateEnergyCost 150 [mkSlab 100 5] == 100 * 5 + 50 * 5 /\
  100 * 5 + 50 * 5 == 750.
Proof.
  intros H0 Hasc Hlast. split.
  - apply calculateEnergyCost_overflow; [discriminate | | exact Hlast].
    cbn [ascendingFrom]. split; [exact H0 | exact Hasc].
  - split; vm_compute; reflexivity.
Qed.

Lemma overflow_policy_witness :
  calculateEnergyCost 150 [mkSlab 100 5] == overflowBill 150 [mkSlab 100 5] /\
  calculateEnergyCost 150 [mkSlab 100 5] == 100 * 5 + 50 * 5 /\
  100 * 5 + 50 * 5 == 750.
Proof.
  apply (overflow_policy 150 (mkSlab 100 5) []).
  - vm_compute. discriminate.
  - exact I.
  - vm_compute. reflexivity.
Defined.

(** C8 - Negative delta clamp: a meter with [current < previous] has
    consumption 0 wherever consumption is derived: as the main meter it feeds
    0 units to the evaluator (whose cost is then 0), as a sub-meter it adds
    nothing to [totalSubmeterUnits], and its user row has [unitsUsed = 0]. *)
Theorem negative_delta_clamp (m : MeterReading) :
  current m < previous m ->
  mainUnits m = 0 /\
  (forall tariffConfig : TariffConfig, energyCostBase m tariffConfig = 0) /\
  (forall (config : BillConfig) (meters : list MeterReading)
          (tariffConfig : TariffConfig),
     vatTotal (calculateBillBreakdown config m meters tariffConfig)
     = (calculateEnergyCost 0 (slabs tariffConfig) + fixedBase tariffConfig)
       * vatRate tariffConfig) /\
  (forall acc : Q, addSubmeterUnits acc m == acc) /\
  (forall pre post : list MeterReading,
     totalSubmeterUnits (pre ++ m :: post) == totalSubmeterUnits (pre ++ post)) /\
  (forall (config : BillConfig) (mainMeter : MeterReading)
          (meters : list MeterReading) (tariffConfig : TariffConfig) (i : nat),
     nth_error meters i = Some m ->
     exists uc,
       nth_error
         (userCalculations
            (calculateBillBreakdown config mainMeter meters tariffConfig)) i
       = Some uc /\
       unitsUsed uc = 0).
Proof.
  intro H.
  assert (D : current m - previous m < 0) by lra.
  assert (M : mainUnits m = 0) by (apply Math_max_0_neg; exact D).
  assert (A : forall acc : Q, addSubmeterUnits acc m == acc).
  { intro acc. rewrite addSubmeterUnits_clamped. unfold clampedUnits.
    rewrite Math_max_0_neg by exact D. ring. }
  split; [exact M |]. split; [| split; [| split; [exact A | split]]].
  - intro tariffConfig. unfold energyCostBase. rewrite M.
    apply calculateEnergyCost_0. lra.
  - intros config meters tariffConfig. rewrite calculateBillBreakdown_locals.
    cbn [vatTotal]. unfold vatTotal_of, taxableBase, energyCostBase.
    rewrite M. reflexivity.
  - intros pre post. unfold totalSubmeterUnits.
    rewrite !fold_left_app. cbn [fold_left].
    set (before := fold_left addSubmeterUnits pre 0).
    rewrite (fold_addSubmeterUnits post (addSubmeterUnits before m)).
    rewrite (fold_addSubmeterUnits post before), A. reflexivity.
  - intros config mainMeter meters tariffConfig i Hi.
    rewrite calculateBillBreakdown_locals. cbn [userCalculations].
    eexists. split.
    + apply map_nth_error. exact Hi.
    + unfold userCalculation. cbn [unitsUsed]. apply Math_max_0_neg. exact D.
Qed.

Lemma negative_delta_clamp_witness :
  mainUnits reversedMeter = 0 /\
  addSubmeterUnits 0 reversedMeter == 0 /\
  totalSubmeterUnits (exampleMeters ++ [reversedMeter])
  == totalSubmeterUnits exampleMeters.
Proof.
  destruct (negative_delta_clamp reversedMeter) as [H1 [_ [_ [H3 [H4 _]]]]].
  - vm_compute. reflexivity.
  - split; [exact H1 |]. split; [exact (H3 0) |].
    rewrite (H4 exampleMeters []), app_nil_r. reflexivity.
Defined.

(** C10 (as stated) fails in the code's doubles: with the example tariff and
    seven sub-meters that did not move, every row has energy cost 0 and pays
    the fixed pool 167.5 divided by 7, yet the seven payables add up to
    167.49999999999997, not to the fixed pool. *)
Lemma zero_consumption_sum_misses_pool_in_doubles :
  let r :=
    Doubles.calculateBillBreakdown Doubles.exampleConfig Doubles.exampleMain
      Doubles.sevenIdleMeters Doubles.exampleTariff in
  let pool :=
    Doubles.fixedSharedPool Doubles.exampleConfig Doubles.exampleMain
      Doubles.exampleTariff in
  List.length (Doubles.userCalculations r) = 7%nat /\
  PrimFloat.eqb (Doubles.totalUnits r) 0 = true /\
  forallb (fun uc => PrimFloat.eqb (Doubles.energyCost uc) 0)
    (Doubles.userCalculations r) = true /\
  forallb (fun uc => PrimFloat.eqb (Doubles.totalPayable uc) (pool / 7))
    (Doubles.userCalculations r) = true /\
  PrimFloat.eqb pool 167.5 = true /\
  PrimFloat.eqb (Doubles.sumTotalPayable r) 167.49999999999997 = true /\
  PrimFloat.eqb (Doubles.sumTotalPayable r) pool = false.
Proof. cbv zeta. repeat split; vm_compute; reflexivity. Qed.

(** C10 - Reconciliation gap at zero sub-meter consumption, amended: in exact
    arithmetic (the rounding of the doubles aside), with at least one
    sub-meter and a total clamped consumption of 0, every user row has energy
    cost 0 and pays the even share of the fixed pool; the payables add up to
    the fixed pool (fixed base + VAT on it + bKash fee + late fee), short of
    [totalCollection] by exactly the energy cost base plus the distributed
    VAT, so that the totals reconcile only when that energy pool is 0. *)
Theorem zero_consumption_gap (config : BillConfig)
    (mainMeter : MeterReading) (meters : list MeterReading)
    (tariffConfig : TariffConfig) :
  meters <> [] ->
  totalUnits (calculateBillBreakdown config mainMeter meters tariffConfig) == 0 ->
  let r := calculateBillBreakdown config mainMeter meters tariffConfig in
  calculatedRate r = 0 /\
  Forall (fun uc =>
            energyCost uc == 0 /\
            totalPayable uc
            == fixedSharedPool config mainMeter tariffConfig / length_num meters)
         (userCalculations r) /\
  sumTotalPayable r == fixedSharedPool config mainMeter tariffConfig /\
  fixedSharedPool config mainMeter tariffConfig
    = fixedBase tariffConfig + vatFixed r + bkash config tariffConfig + lateFee r /\
  totalCollection r - sumTotalPayable r
    == energyCostBase mainMeter tariffConfig + vatDistributed r /\
  (sumTotalPayable r == totalCollection r
   <-> energyCostBase mainMeter tariffConfig + vatDistributed r == 0).
Proof.
  intros Hne Hzero. cbv zeta.
  pose proof (sumTotalPayable_nonempty config mainMeter meters tariffConfig Hne) as S.
  rewrite calculateBillBreakdown_locals in *.
  cbn [totalUnits calculatedRate userCalculations vatFixed lateFee
       totalCollection vatDistributed] in *.
  assert (R : calculatedRate_of mainMeter meters tariffConfig = 0).
  { unfold calculatedRate_of.
    assert (G : gt0 (totalSubmeterUnits meters) = false)
      by (apply gt0_false; rewrite Hzero; lra).
    rewrite G. reflexivity. }
  rewrite R in *.
  assert (S' : sumTotalPayable
                 {| vatFixed := vatFixed_of tariffConfig;
                    vatDistributed := vatDistributed_of mainMeter tariffConfig;
                    vatTotal := vatTotal_of mainMeter tariffConfig;
                    lateFee := lateFee_of config mainMeter tariffConfig;
                    calculatedRate := 0;
                    totalUnits := totalSubmeterUnits meters;
                    userCalculations :=
                      map (userCalculation 0
                             (fixedCostPerUser config mainMeter meters tariffConfig))
                        meters;
                    totalCollection :=
                      totalBillCalculated config mainMeter tariffConfig |}
               == fixedSharedPool config mainMeter tariffConfig)
    by (rewrite S; ring).
  pose proof (totalBillCalculated_pools config mainMeter tariffConfig) as T.
  unfold energySharedPool in T.
  split; [reflexivity |]. split; [| split; [exact S' | split; [reflexivity | split]]].
  - apply Forall_forall. intros uc Hin. apply in_map_iff in Hin.
    destruct Hin as [m [E _]]. subst uc.
    unfold userCalculation. cbn [energyCost totalPayable].
    rewrite fixedCostPerUser_nonempty by exact Hne. split; ring.
  - rewrite S', T. ring.
  - rewrite S', T. split; intro K; lra.
Qed.

Lemma zero_consumption_gap_witness :
  sumTotalPayable
    (calculateBillBreakdown exampleConfig exampleMain idleMeters exampleTariff)
  == fixedSharedPool exampleConfig exampleMain exampleTariff.
Proof.
  apply (zero_consumption_gap exampleConfig exampleMain idleMeters exampleTariff).
  - discriminate.
  - vm_compute. reflexivity.
Defined.

(** * Further properties of the evaluator *)

Lemma tierBill_below (ss : list Slab) (lo u : Q) :
  ascendingFrom lo ss -> u <= lo -> tierBill lo u ss == 0.
Proof.
  revert lo. induction ss as [| s rest IH]; intros lo Hasc Hu.
  - reflexivity.
  - destruct Hasc as [H1 H2]. cbn [tierBill].
    rewrite (IH (limit s) H2) by lra.
    destruct (Q.min_spec u (limit s)) as [[_ E1] | [L1 E1]];
      destruct (Q.min_spec u lo) as [[_ E2] | [L2 E2]];
      rewrite E1, E2; try ring.
    + assert (E : u == lo) by lra. rewrite E. ring.
    + assert (E : limit s == u) by lra. rewrite E. ring.
    + assert (E : limit s == lo) by lra. rewrite E. ring.
Qed.

(** The loop on an ascending table, started inside the table's range: it
    accumulates the tiers' shares and leaves what exceeds the last limit. *)
Lemma slabLoop_progressive (ss : list Slab) (st : EvalState) (u : Q) :
  ascendingFrom (previousLimit st) ss ->
  previousLimit st <= u ->
  remainingUnits st == u - previousLimit st ->
  remainingUnits (slabLoop ss st) == Qmax 0 (u - lastLimit (previousLimit st) ss) /\
  energyCostAcc (slabLoop ss st)
    == energyCostAcc st + tierBill (previousLimit st) u ss.
Proof.
  revert st. induction ss as [| s rest IH]; intros st Hasc Hp Hr.
  - cbn [slabLoop lastLimit tierBill]. split; [| ring].
    rewrite Hr. destruct (Q.max_spec 0 (u - previousLimit st)) as [[_ E] | [L E]];
      rewrite E; lra.
  - destruct Hasc as [H1 H2]. cbn [lastLimit tierBill].
    pose proof (lastLimit_ge rest (limit s) H2) as G.
    destruct (slabStep_arith s st) as [k [Ep [Er [Ec [Hk Hcase]]]]].
    assert (K : k == Qmin u (limit s) - Qmin u (previousLimit st)).
    { destruct (Q.min_spec u (limit s)) as [[L1 E1] | [L1 E1]];
        destruct (Q.min_spec u (previousLimit st)) as [[L2 E2] | [L2 E2]];
        rewrite E1, E2;
        destruct Hcase as [[E L] | [[E L] | [E [L | L]]]]; lra. }
    rewrite slabLoop_cons.
    destruct (le0 (remainingUnits (slabStep s st))) eqn:B.
    + apply le0_true in B. rewrite Er in B.
      assert (U : u <= limit s).
      { destruct (Q.min_spec u (limit s)) as [[L1 E1] | [L1 E1]];
          destruct (Q.min_spec u (previousLimit st)) as [[L2 E2] | [L2 E2]];
          rewrite E1, E2 in K; lra. }
      rewrite (tierBill_below rest (limit s) u H2 U). split.
      * rewrite Er.
        destruct (Q.max_spec 0 (u - lastLimit (limit s) rest)) as [[L E] | [L E]];
          rewrite E; [exfalso; lra |].
        destruct (Q.min_spec u (limit s)) as [[L1 E1] | [L1 E1]];
          destruct (Q.min_spec u (previousLimit st)) as [[L2 E2] | [L2 E2]];
          rewrite E1, E2 in K; lra.
      * rewrite Ec, K. ring.
    + apply le0_false in B. rewrite Er in B.
      assert (U : limit s < u).
      { destruct (Q.min_spec u (limit s)) as [[L1 E1] | [L1 E1]];
          destruct (Q.min_spec u (previousLimit st)) as [[L2 E2] | [L2 E2]];
          rewrite E1, E2 in K; lra. }
      assert (K' : k == limit s - previousLimit st).
      { destruct (Q.min_spec u (limit s)) as [[L1 E1] | [L1 E1]];
          destruct (Q.min_spec u (previousLimit st)) as [[L2 E2] | [L2 E2]];
          rewrite E1, E2 in K; lra. }
      destruct (IH (slabStep s st)) as [IHr IHc].
      * rewrite Ep. exact H2.
      * rewrite Ep. lra.
      * rewrite Ep, Er, K', Hr. ring.
      * rewrite Ep in IHr, IHc. split; [exact IHr |].
        rewrite IHc, Ec, K. ring.
Qed.

(** X1 - On a table ascending from 0 the loop computes the progressive
    tariff: each tier is charged for the part of the consumption that falls
    into it, and what exceeds the last limit is charged at the last rate. *)
Theorem evaluator_is_progressive_tariff (units : Q) (ss : list Slab) :
  ascendingFrom 0 ss ->
  calculateEnergyCost units ss == progressiveBill units ss.
Proof.
  intro Hasc. unfold progressiveBill.
  pose proof (lastLimit_ge ss 0 Hasc) as G.
  destruct (Qlt_le_dec units 0) as [Neg | Pos].
  - rewrite calculateEnergyCost_0 by lra.
    rewrite (tierBill_below ss 0 units Hasc) by lra.
    destruct (Q.max_spec 0 (units - lastLimit 0 ss)) as [[L E] | [L E]];
      rewrite E; [exfalso; lra | ring].
  - unfold calculateEnergyCost.
    destruct (slabLoop_progressive ss (mkEvalState units 0 0) units) as [Hr Hc];
      cbn [remainingUnits energyCostAcc previousLimit] in *;
      [exact Hasc | exact Pos | ring |].
    set (f := slabLoop ss (mkEvalState units 0 0)) in *.
    destruct ss as [| s rest].
    + rewrite overflowCharge_nil, Hc. cbn [lastRate]. ring.
    + destruct (Qlt_le_dec 0 (remainingUnits f)) as [R | R].
      * rewrite overflowCharge_some by exact R. rewrite Hc, Hr. ring.
      * rewrite overflowCharge_none by exact R. rewrite Hc, <- Hr.
        assert (Z0 : remainingUnits f == 0).
        { pose proof (Q.le_max_l 0 (units - lastLimit 0 (s :: rest))) as M.
          rewrite <- Hr in M. lra. }
        rewrite Z0. ring.
Qed.

Lemma evaluator_is_progressive_tariff_witness :
  calculateEnergyCost 120 exampleSlabs == progressiveBill 120 exampleSlabs.
Proof.
  apply (evaluator_is_progressive_tariff 120 exampleSlabs).
  repeat split; vm_compute; discriminate.
Defined.

(** The loop's control flow does not look at the rates. *)
Lemma slabLoop_scaleRates (k : Q) (ss : list Slab) (st1 st2 : EvalState) :
  remainingUnits st1 = remainingUnits st2 ->
  previousLimit st1 = previousLimit st2 ->
  energyCostAcc st1 == k * energyCostAcc st2 ->
  remainingUnits (slabLoop (scaleRates k ss) st1) = remainingUnits (slabLoop ss st2) /\
  energyCostAcc (slabLoop (scaleRates k ss) st1)
    == k * energyCostAcc (slabLoop ss st2).
Proof.
  revert st1 st2. induction ss as [| s rest IH]; intros st1 st2 Hr Hp Hc.
  - cbn. split; assumption.
  - cbn [scaleRates map]. fold (scaleRates k rest). rewrite !slabLoop_cons.
    set (s' := mkSlab (limit s) (k * rate s)).
    assert (S : remainingUnits (slabStep s' st1) = remainingUnits (slabStep s st2)
                /\ previousLimit (slabStep s' st1) = previousLimit (slabStep s st2)
                /\ energyCostAcc (slabStep s' st1)
                   == k * energyCostAcc (slabStep s st2)).
    { unfold slabStep, s'. cbn [limit rate]. rewrite Hr, Hp.
      destruct (gt0 (Math_min (remainingUnits st2) (limit s - previousLimit st2)));
        cbn [remainingUnits energyCostAcc previousLimit];
        repeat split; try assumption.
      rewrite Hc. ring. }
    destruct S as [S1 [S2 S3]]. rewrite S1.
    destruct (le0 (remainingUnits (slabStep s st2))).
    + split; assumption.
    + apply IH; assumption.
Qed.

Lemma lastRate_scaleRates (k r0 : Q) (ss : list Slab) :
  lastRate (k * r0) (scaleRates k ss) = k * lastRate r0 ss.
Proof.
  revert r0. induction ss as [| s rest IH]; intro r0.
  - reflexivity.
  - cbn [scaleRates map lastRate rate]. apply IH.
Qed.

(** X2 - In exact arithmetic (the rounding of the doubles aside), the cost
    is linear in the rates: multiplying every rate of the table by [k]
    multiplies the cost by [k], whatever the table and the units. *)
Theorem evaluator_scales_with_rates (k units : Q) (ss : list Slab) :
  calculateEnergyCost units (scaleRates k ss) == k * calculateEnergyCost units ss.
Proof.
  unfold calculateEnergyCost.
  destruct (slabLoop_scaleRates k ss (mkEvalState units 0 0) (mkEvalState units 0 0))
    as [Hr Hc]; try reflexivity; [cbn; ring |].
  set (f1 := slabLoop (scaleRates k ss) (mkEvalState units 0 0)) in *.
  set (f2 := slabLoop ss (mkEvalState units 0 0)) in *.
  destruct ss as [| s rest].
  - cbn [scaleRates map]. rewrite !overflowCharge_nil. exact Hc.
  - cbn [scaleRates map]. fold (scaleRates k rest).
    destruct (Qlt_le_dec 0 (remainingUnits f2)) as [R | R].
    + rewrite !overflowCharge_some by (try rewrite Hr; exact R).
      change (mkSlab (limit s) (k * rate s) :: scaleRates k rest)
        with (scaleRates k (s :: rest)).
      assert (L : lastRate 0 (scaleRates k (s :: rest)) = k * lastRate 0 (s :: rest)).
      { cbn [scaleRates map lastRate rate]. fold (scaleRates k rest).
        apply lastRate_scaleRates. }
      rewrite L, Hc, Hr. ring.
    + rewrite !overflowCharge_none by (try rewrite Hr; exact R). exact Hc.
Qed.

(** X3 - Consumption within the first tier is billed at the first rate:
    for 0 <= units <= first limit the cost is units * first rate, whatever
    slabs follow. *)
Theorem first_tier_rate (units : Q) (s : Slab) (rest : list Slab) :
  0 <= units -> units <= limit s ->
  calculateEnergyCost units (s :: rest) == units * rate s.
Proof.
  intros H0 H1. set (st := mkEvalState units 0 0).
  destruct (slabStep_arith s st) as [k [_ [Hr [Hc [Hk Hcase]]]]].
  cbn [remainingUnits energyCostAcc previousLimit st] in Hr, Hc, Hcase.
  assert (K : k == units).
  { destruct Hcase as [[E L] | [[E L] | [E [L | L]]]]; lra. }
  assert (R : remainingUnits (slabStep s st) == 0) by (rewrite Hr, K; ring).
  assert (B : le0 (remainingUnits (slabStep s st)) = true)
    by (apply le0_true; rewrite R; lra).
  unfold calculateEnergyCost. fold st. rewrite slabLoop_cons, B.
  rewrite overflowCharge_none by (rewrite R; lra).
  rewrite Hc, K. ring.
Qed.

Lemma first_tier_rate_witness :
  calculateEnergyCost 30 exampleSlabs == 30 * 4.
Proof.
  apply (first_tier_rate 30 (mkSlab 50 4) [mkSlab 100 5; mkSlab 99999 6]);
    vm_compute; discriminate.
Defined.

(** X4 - Under non-negative rates the cost is never negative, for any units
    and any table (sorted or not). *)
Theorem evaluator_cost_nonnegative (units : Q) (ss : list Slab) :
  ratesNonneg ss -> 0 <= calculateEnergyCost units ss.
Proof.
  intro H. unfold calculateEnergyCost.
  pose proof (slabLoop_cost_ge ss (mkEvalState units 0 0) H) as C.
  cbn [energyCostAcc] in C.
  set (f := slabLoop ss (mkEvalState units 0 0)) in *.
  destruct ss as [| s rest]; [rewrite overflowCharge_nil; exact C |].
  destruct (Qlt_le_dec 0 (remainingUnits f)) as [R | R].
  - rewrite overflowCharge_some by assumption.
    pose proof (lastRate_nonneg s rest H) as L.
    assert (0 <= remainingUnits f * lastRate 0 (s :: rest))
      by (apply Qmult_le_0_compat; lra).
    lra.
  - rewrite overflowCharge_none by assumption. exact C.
Qed.

Lemma evaluator_cost_nonnegative_witness :
  0 <= calculateEnergyCost 120 exampleSlabs.
Proof.
  apply (evaluator_cost_nonnegative 120 exampleSlabs).
  repeat constructor; vm_compute; discriminate.
Defined.

(** * Further properties of the engine *)

Lemma gt0_Qeq (a b : Q) : a == b -> gt0 a = gt0 b.
Proof.
  intro E. destruct (gt0 b) eqn:G.
  - apply gt0_true. apply gt0_true in G. lra.
  - apply gt0_false. apply gt0_false in G. lra.
Qed.

Lemma map_unitsUsed (rate_ fixed_ : Q) (meters : list MeterReading) :
  map unitsUsed (map (userCalculation rate_ fixed_) meters)
  = map clampedUnits meters.
Proof. rewrite map_map. reflexivity. Qed.

Lemma sum_energyCost (rate_ fixed_ : Q) (meters : list MeterReading) :
  sumQ (map energyCost (map (userCalculation rate_ fixed_) meters))
  == rate_ * sumQ (map clampedUnits meters).
Proof.
  induction meters as [| m rest IH].
  - cbn. ring.
  - cbn [map]. rewrite !sumQ_cons, IH.
    unfold userCalculation, clampedUnits. cbn [energyCost]. ring.
Qed.

Lemma sum_fixedCost (rate_ fixed_ : Q) (meters : list MeterReading) :
  sumQ (map fixedCost (map (userCalculation rate_ fixed_) meters))
  == length_num meters * fixed_.
Proof.
  induction meters as [| m rest IH].
  - change (0 == 0 * fixed_). ring.
  - cbn [map]. rewrite !sumQ_cons, IH, length_num_cons.
    unfold userCalculation. cbn [fixedCost]. ring.
Qed.

Lemma totalSubmeterUnits_pos_nonempty (meters : list MeterReading) :
  0 < totalSubmeterUnits meters -> meters <> [].
Proof.
  intros H E. subst meters. vm_compute in H. discriminate H.
Qed.

(** The distributed VAT is the VAT on the energy charge. *)
Lemma vatDistributed_of_energy (mainMeter : MeterReading)
    (tariffConfig : TariffConfig) :
  vatDistributed_of mainMeter tariffConfig
  == energyCostBase mainMeter tariffConfig * vatRate tariffConfig.
Proof. unfold vatDistributed_of, vatTotal_of, vatFixed_of, taxableBase. ring. Qed.

(** Under non-negative rates and VAT rate the derived rate is not negative. *)
Lemma calculatedRate_of_nonneg (mainMeter : MeterReading)
    (meters : list MeterReading) (tariffConfig : TariffConfig) :
  ratesNonneg (slabs tariffConfig) -> 0 <= vatRate tariffConfig ->
  0 <= calculatedRate_of mainMeter meters tariffConfig.
Proof.
  intros Hr Hv. unfold calculatedRate_of.
  destruct (gt0 (totalSubmeterUnits meters)) eqn:G; [| lra].
  apply gt0_true in G. unfold energySharedPool.
  rewrite vatDistributed_of_energy.
  pose proof (calculateEnergyCost_nonneg (mainUnits mainMeter)
                (slabs tariffConfig) Hr) as E.
  fold (energyCostBase mainMeter tariffConfig) in E.
  assert (0 <= energyCostBase mainMeter tariffConfig * vatRate tariffConfig)
    by (apply Qmult_le_0_compat; assumption).
  apply Qle_shift_div_l; [exact G | lra].
Qed.

(** X5 - The result's [totalUnits] is the sum of the rows' [unitsUsed]: the
    test-and-add of the [forEach] and the [Math.max] of the [map] agree. *)
Theorem total_units_is_sum_of_rows (config : BillConfig)
    (mainMeter : MeterReading) (meters : list MeterReading)
    (tariffConfig : TariffConfig) :
  let r := calculateBillBreakdown config mainMeter meters tariffConfig in
  sumQ (map unitsUsed (userCalculations r)) == totalUnits r.
Proof.
  cbv zeta. rewrite calculateBillBreakdown_locals.
  cbn [userCalculations totalUnits].
  rewrite map_unitsUsed, totalSubmeterUnits_sum. reflexivity.
Qed.

(** X6 - In exact arithmetic (the rounding of the doubles aside), when some
    consumption is metered the rows' energy costs add up to the energy pool
    (energy charge of the main meter plus the VAT on it) and the rows' fixed
    costs add up to the fixed pool. *)
Theorem pools_are_fully_distributed (config : BillConfig)
    (mainMeter : MeterReading) (meters : list MeterReading)
    (tariffConfig : TariffConfig) :
  0 < totalUnits (calculateBillBreakdown config mainMeter meters tariffConfig) ->
  let r := calculateBillBreakdown config mainMeter meters tariffConfig in
  sumQ (map energyCost (userCalculations r))
    == energyCostBase mainMeter tariffConfig
       + energyCostBase mainMeter tariffConfig * vatRate tariffConfig /\
  sumQ (map fixedCost (userCalculations r))
    == fixedSharedPool config mainMeter tariffConfig.
Proof.
  intro Hpos. cbv zeta. rewrite calculateBillBreakdown_locals in *.
  cbn [userCalculations totalUnits] in *.
  pose proof (totalSubmeterUnits_pos_nonempty meters Hpos) as Hne.
  split.
  - rewrite sum_energyCost, <- totalSubmeterUnits_sum. unfold calculatedRate_of.
    assert (G : gt0 (totalSubmeterUnits meters) = true) by (apply gt0_true; exact Hpos).
    rewrite G, rate_times_units by exact Hpos.
    unfold energySharedPool. rewrite vatDistributed_of_energy. reflexivity.
  - rewrite sum_fixedCost, fixedCostPerUser_nonempty by exact Hne.
    apply share_times_count. apply length_num_nonempty. exact Hne.
Qed.

Lemma pools_are_fully_distributed_witness :
  let r :=
    calculateBillBreakdown exampleConfig exampleMain exampleMeters exampleTariff in
  sumQ (map energyCost (userCalculations r))
    == energyCostBase exampleMain exampleTariff
       + energyCostBase exampleMain exampleTariff * vatRate exampleTariff /\
  sumQ (map fixedCost (userCalculations r))
    == fixedSharedPool exampleConfig exampleMain exampleTariff.
Proof.
  apply (pools_are_fully_distributed exampleConfig exampleMain exampleMeters
           exampleTariff).
  vm_compute. reflexivity.
Defined.

(** X7 - The VAT split, in exact arithmetic (the rounding of the doubles
    aside): the distributed VAT of the result is the VAT rate applied to the
    energy charge, the fixed VAT is the VAT rate applied to demand charge
    plus meter rent, and the two add up to the total VAT. *)
Theorem vat_split (config : BillConfig)
    (mainMeter : MeterReading) (meters : list MeterReading)
    (tariffConfig : TariffConfig) :
  let r := calculateBillBreakdown config mainMeter meters tariffConfig in
  vatDistributed r == energyCostBase mainMeter tariffConfig * vatRate tariffConfig /\
  vatFixed r
    == (demandCharge tariffConfig + meterRent tariffConfig) * vatRate tariffConfig /\
  vatFixed r + vatDistributed r == vatTotal r.
Proof.
  cbv zeta. rewrite calculateBillBreakdown_locals.
  cbn [vatDistributed vatFixed vatTotal].
  split; [apply vatDistributed_of_energy |].
  unfold vatDistributed_of, vatFixed_of, fixedBase. split; ring.
Qed.

(** X8 - Under non-negative rates and a non-negative VAT rate the derived
    rate is not negative, and a user who consumed no more than another pays
    no more than the other. *)
Theorem payable_monotone_in_units (config : BillConfig)
    (mainMeter : MeterReading) (meters : list MeterReading)
    (tariffConfig : TariffConfig) (i j : nat) (ui uj : UserCalculation) :
  ratesNonneg (slabs tariffConfig) -> 0 <= vatRate tariffConfig ->
  nth_error
    (userCalculations (calculateBillBreakdown config mainMeter meters tariffConfig))
    i = Some ui ->
  nth_error
    (userCalculations (calculateBillBreakdown config mainMeter meters tariffConfig))
    j = Some uj ->
  unitsUsed ui <= unitsUsed uj ->
  0 <= calculatedRate (calculateBillBreakdown config mainMeter meters tariffConfig) /\
  totalPayable ui <= totalPayable uj.
Proof.
  intros Hr Hv Hi Hj Hu. rewrite calculateBillBreakdown_locals in *.
  cbn [userCalculations calculatedRate] in *.
  pose proof (calculatedRate_of_nonneg mainMeter meters tariffConfig Hr Hv) as R.
  split; [exact R |].
  apply nth_error_In, in_map_iff in Hi. destruct Hi as [mi [Ei _]].
  apply nth_error_In, in_map_iff in Hj. destruct Hj as [mj [Ej _]].
  subst ui uj. unfold userCalculation in *. cbn [unitsUsed totalPayable] in *.
  assert (Math_max 0 (current mi - previous mi)
            * calculatedRate_of mainMeter meters tariffConfig
          <= Math_max 0 (current mj - previous mj)
            * calculatedRate_of mainMeter meters tariffConfig)
    by (apply Qmult_le_compat_r; assumption).
  lra.
Qed.

Lemma payable_monotone_in_units_witness :
  0 <= calculatedRate
         (calculateBillBreakdown exampleConfig exampleMain
            (reversedMeter :: exampleMeters) exampleTariff) /\
  totalPayable (userCalculation (calculatedRate_of exampleMain
                  (reversedMeter :: exampleMeters) exampleTariff)
                  (fixedCostPerUser exampleConfig exampleMain
                     (reversedMeter :: exampleMeters) exampleTariff)
                  reversedMeter)
  <= totalPayable (userCalculation (calculatedRate_of exampleMain
                  (reversedMeter :: exampleMeters) exampleTariff)
                  (fixedCostPerUser exampleConfig exampleMain
                     (reversedMeter :: exampleMeters) exampleTariff)
                  (mkMeterReading "1" "User 1" "1" 0 60)).
Proof.
  apply (payable_monotone_in_units exampleConfig exampleMain
           (reversedMeter :: exampleMeters) exampleTariff 0 1).
  - repeat constructor; vm_compute; discriminate.
  - vm_compute. discriminate.
  - reflexivity.
  - reflexivity.
  - vm_compute. discriminate.
Defined.

Lemma sumQ_Permutation (xs ys : list Q) :
  Permutation xs ys -> sumQ xs == sumQ ys.
Proof.
  induction 1 as [| x xs ys _ IH | x y xs | xs ys zs _ IH1 _ IH2].
  - reflexivity.
  - rewrite !sumQ_cons, IH. reflexivity.
  - rewrite !sumQ_cons. ring.
  - rewrite IH1. exact IH2.
Qed.

(** X9 - In exact arithmetic (the rounding of the doubles aside), the order
    of the sub-meters does not matter: permuting them leaves the total to
    collect, the total units, the derived rate and the fixed share
    unchanged. *)
Theorem submeter_order_irrelevant (config : BillConfig)
    (mainMeter : MeterReading) (meters meters' : list MeterReading)
    (tariffConfig : TariffConfig) :
  Permutation meters meters' ->
  let r := calculateBillBreakdown config mainMeter meters tariffConfig in
  let r' := calculateBillBreakdown config mainMeter meters' tariffConfig in
  totalCollection r' = totalCollection r /\
  totalUnits r' == totalUnits r /\
  calculatedRate r' == calculatedRate r /\
  fixedCostPerUser config mainMeter meters' tariffConfig
    = fixedCostPerUser config mainMeter meters tariffConfig.
Proof.
  intro P. cbv zeta. rewrite !calculateBillBreakdown_locals.
  cbn [totalCollection totalUnits calculatedRate].
  assert (T : totalSubmeterUnits meters' == totalSubmeterUnits meters).
  { rewrite !totalSubmeterUnits_sum. apply sumQ_Permutation.
    apply Permutation_map. symmetry. exact P. }
  split; [reflexivity |]. split; [exact T |]. split.
  - unfold calculatedRate_of. rewrite (gt0_Qeq _ _ T).
    destruct (gt0 (totalSubmeterUnits meters)); [| reflexivity].
    rewrite T. reflexivity.
  - unfold fixedCostPerUser, length_num.
    rewrite (Permutation_length P). reflexivity.
Qed.

Lemma submeter_order_irrelevant_witness :
  totalUnits (calculateBillBreakdown exampleConfig exampleMain
                (rev (reversedMeter :: exampleMeters)) exampleTariff)
  == totalUnits (calculateBillBreakdown exampleConfig exampleMain
                (reversedMeter :: exampleMeters) exampleTariff).
Proof.
  apply (submeter_order_irrelevant exampleConfig exampleMain
           (reversedMeter :: exampleMeters)
           (rev (reversedMeter :: exampleMeters)) exampleTariff).
  apply Permutation_rev.
Defined.

(** * The splitter view against the engine *)

Lemma fold_left_plus_sum {A : Type} (f : A -> Q) (xs : list A) (acc : Q) :
  fold_left (fun a x => a + f x) xs acc == acc + sumQ (map f xs).
Proof.
  revert acc. induction xs as [| x rest IH]; intro acc.
  - cbn. ring.
  - cbn [fold_left map]. rewrite sumQ_cons, IH. ring.
Qed.

Lemma Dashboard_totalSubUnits_sum (meters : list MeterReading) :
  Dashboard.totalSubUnits meters == sumQ (map clampedUnits meters).
Proof.
  unfold Dashboard.totalSubUnits.
  rewrite (fold_left_plus_sum (fun m => Math_max 0 (current m - previous m))).
  unfold clampedUnits. ring.
Qed.

Lemma Dashboard_totalSharedFixedCosts_pool (config : BillConfig)
    (mainMeter : MeterReading) (meters : list MeterReading)
    (tariffConfig : TariffConfig) :
  Dashboard.totalSharedFixedCosts config
    (calculateBillBreakdown config mainMeter meters tariffConfig) tariffConfig
  == fixedSharedPool config mainMeter tariffConfig.
Proof.
  rewrite calculateBillBreakdown_locals.
  unfold Dashboard.totalSharedFixedCosts, Dashboard.bkashFee, fixedSharedPool,
    fixedBase, bkash.
  cbn [vatFixed lateFee]. ring.
Qed.

(** X10 - In exact arithmetic (the rounding of the doubles aside), the
    figures the splitter view derives on its own agree with the engine's: its
    sum of sub-meter units is the result's [totalUnits], its shared fixed
    costs are the engine's fixed pool, its per-user fixed cost is the
    [fixedCost] of every row, and its base bill is the taxable base plus the
    total VAT. *)
Theorem dashboard_figures_agree (config : BillConfig)
    (mainMeter : MeterReading) (meters : list MeterReading)
    (tariffConfig : TariffConfig) :
  let r := calculateBillBreakdown config mainMeter meters tariffConfig in
  Dashboard.totalSubUnits meters == totalUnits r /\
  Dashboard.totalSharedFixedCosts config r tariffConfig
    == fixedSharedPool config mainMeter tariffConfig /\
  Forall (fun uc =>
            fixedCost uc == Dashboard.fixedCostPerUser config r meters tariffConfig)
         (userCalculations r) /\
  Dashboard.baseBill config r tariffConfig
    == taxableBase mainMeter tariffConfig + vatTotal r.
Proof.
  cbv zeta.
  pose proof (Dashboard_totalSharedFixedCosts_pool config mainMeter meters
                tariffConfig) as P.
  split; [| split; [exact P | split]].
  - rewrite Dashboard_totalSubUnits_sum, calculateBillBreakdown_locals.
    cbn [totalUnits]. rewrite totalSubmeterUnits_sum. reflexivity.
  - apply Forall_forall. intros uc Hin.
    unfold Dashboard.fixedCostPerUser.
    destruct (gt0 (length_num meters)) eqn:G.
    + rewrite P. rewrite calculateBillBreakdown_locals in Hin.
      cbn [userCalculations] in Hin. apply in_map_iff in Hin.
      destruct Hin as [m [E _]]. subst uc. unfold userCalculation.
      cbn [fixedCost]. unfold fixedCostPerUser. rewrite G. reflexivity.
    + rewrite calculateBillBreakdown_locals in Hin.
      cbn [userCalculations] in Hin. apply in_map_iff in Hin.
      destruct Hin as [m [E _]]. subst uc. unfold userCalculation.
      cbn [fixedCost]. unfold fixedCostPerUser. rewrite G. reflexivity.
  - rewrite calculateBillBreakdown_locals.
    unfold Dashboard.baseBill, Dashboard.bkashFee.
    cbn [totalCollection lateFee vatTotal].
    unfold totalBillCalculated, bkash. ring.
Qed.

(** X11 - In exact arithmetic (the rounding of the doubles aside), the
    subtotal the splitter view shows under the user table (a left-to-right
    [reduce] over the rows) is the total to collect whenever some consumption
    is metered. *)
Theorem dashboard_subtotal_is_total (config : BillConfig)
    (mainMeter : MeterReading) (meters : list MeterReading)
    (tariffConfig : TariffConfig) :
  0 < totalUnits (calculateBillBreakdown config mainMeter meters tariffConfig) ->
  Dashboard.userSubtotal (calculateBillBreakdown config mainMeter meters tariffConfig)
  == totalCollection (calculateBillBreakdown config mainMeter meters tariffConfig).
Proof.
  intro Hpos. unfold Dashboard.userSubtotal.
  rewrite (fold_left_plus_sum totalPayable).
  fold (sumTotalPayable (calculateBillBreakdown config mainMeter meters tariffConfig)).
  assert (Hne : meters <> []).
  { apply totalSubmeterUnits_pos_nonempty.
    rewrite calculateBillBreakdown_locals in Hpos. exact Hpos. }
  rewrite sumTotalPayable_nonempty by exact Hne.
  rewrite calculateBillBreakdown_locals in *. cbn [totalUnits totalCollection] in *.
  rewrite totalBillCalculated_pools. unfold calculatedRate_of.
  assert (G : gt0 (totalSubmeterUnits meters) = true) by (apply gt0_true; exact Hpos).
  rewrite G, rate_times_units by exact Hpos. ring.
Qed.

Lemma dashboard_subtotal_is_total_witness :
  Dashboard.userSubtotal
    (calculateBillBreakdown exampleConfig exampleMain exampleMeters exampleTariff)
  == totalCollection
    (calculateBillBreakdown exampleConfig exampleMain exampleMeters exampleTariff).
Proof.
  apply (dashboard_subtotal_is_total exampleConfig exampleMain exampleMeters
           exampleTariff).
  vm_compute. reflexivity.
Defined.

(** * Editing the list of sub-meters *)

(** X12 - [handleMeterChange] touches only the meters with the given id: the
    list keeps its length, a meter with another id stays where it is, a meter
    with the id is replaced by its update, and an id that no meter carries
    leaves the list as it was. *)
Theorem handleMeterChange_frame (id_ : string) (u : MeterUpdate)
    (meters : list MeterReading) :
  List.length (Dashboard.handleMeterChange id_ u meters) = List.length meters /\
  (forall (i : nat) (m : MeterReading),
     nth_error meters i = Some m -> id m <> id_ ->
     nth_error (Dashboard.handleMeterChange id_ u meters) i = Some m) /\
  (forall (i : nat) (m : MeterReading),
     nth_error meters i = Some m -> id m = id_ ->
     nth_error (Dashboard.handleMeterChange id_ u meters) i
     = Some (applyUpdate m u)) /\
  ((forall m : MeterReading, In m meters -> id m <> id_) ->
   Dashboard.handleMeterChange id_ u meters = meters).
Proof.
  unfold Dashboard.handleMeterChange.
  split; [apply length_map |]. split; [| split].
  - intros i m Hi Hid. rewrite (map_nth_error _ _ _ Hi).
    apply String.eqb_neq in Hid. rewrite Hid. reflexivity.
  - intros i m Hi Hid. rewrite (map_nth_error _ _ _ Hi).
    apply String.eqb_eq in Hid. rewrite Hid. reflexivity.
  - intro H. induction meters as [| m rest IH]; [reflexivity |].
    cbn [map]. rewrite IH by (intros x Hx; apply H; right; exact Hx).
    assert (E : (id m =? id_)%string = false)
      by (apply String.eqb_neq, H; left; reflexivity).
    rewrite E. reflexivity.
Qed.

Lemma handleMeterChange_frame_witness :
  Dashboard.handleMeterChange "7" (SetCurrent 99) exampleMeters = exampleMeters.
Proof.
  apply (handleMeterChange_frame "7" (SetCurrent 99) exampleMeters).
  intros m [E | [E | []]]; subst m; vm_compute; discriminate.
Defined.

Lemma fold_addSubmeterUnits_map (f : MeterReading -> MeterReading)
    (meters : list MeterReading) (acc : Q) :
  (forall m, previous (f m) = previous m /\ current (f m) = current m) ->
  fold_left addSubmeterUnits (map f meters) acc
  = fold_left addSubmeterUnits meters acc.
Proof.
  intro H. revert acc. induction meters as [| m rest IH]; intro acc.
  - reflexivity.
  - cbn [map fold_left]. rewrite IH. unfold addSubmeterUnits.
    destruct (H m) as [Hp Hc]. rewrite Hp, Hc. reflexivity.
Qed.

(** X13 - Renaming or renumbering a meter changes no amount of the bill: the
    total to collect, the total units, the derived rate and every row's
    units, energy cost, fixed cost and payable stay the same. *)
Theorem relabelling_keeps_the_bill (config : BillConfig)
    (mainMeter : MeterReading) (meters : list MeterReading)
    (tariffConfig : TariffConfig) (id_ : string) (u : MeterUpdate) :
  (exists v, u = SetName v) \/ (exists v, u = SetMeterNo v) ->
  let r := calculateBillBreakdown config mainMeter meters tariffConfig in
  let r' :=
    calculateBillBreakdown config mainMeter
      (Dashboard.handleMeterChange id_ u meters) tariffConfig in
  totalCollection r' = totalCollection r /\
  totalUnits r' = totalUnits r /\
  calculatedRate r' = calculatedRate r /\
  map unitsUsed (userCalculations r') = map unitsUsed (userCalculations r) /\
  map energyCost (userCalculations r') = map energyCost (userCalculations r) /\
  map fixedCost (userCalculations r') = map fixedCost (userCalculations r) /\
  map totalPayable (userCalculations r') = map totalPayable (userCalculations r).
Proof.
  intro Hu. cbv zeta. rewrite !calculateBillBreakdown_locals.
  cbn [totalCollection totalUnits calculatedRate userCalculations].
  set (f := fun m => if (id m =? id_)%string then applyUpdate m u else m).
  assert (F : forall m, previous (f m) = previous m /\ current (f m) = current m).
  { intro m. unfold f. destruct (id m =? id_)%string; [| split; reflexivity].
    destruct Hu as [[v E] | [v E]]; subst u; split; reflexivity. }
  assert (T : totalSubmeterUnits (Dashboard.handleMeterChange id_ u meters)
              = totalSubmeterUnits meters)
    by (apply fold_addSubmeterUnits_map; exact F).
  assert (R : calculatedRate_of mainMeter (Dashboard.handleMeterChange id_ u meters)
                tariffConfig
              = calculatedRate_of mainMeter meters tariffConfig)
    by (unfold calculatedRate_of; rewrite T; reflexivity).
  assert (C : fixedCostPerUser config mainMeter
                (Dashboard.handleMeterChange id_ u meters) tariffConfig
              = fixedCostPerUser config mainMeter meters tariffConfig).
  { unfold fixedCostPerUser, length_num, Dashboard.handleMeterChange.
    rewrite length_map. reflexivity. }
  rewrite R, C. unfold Dashboard.handleMeterChange. fold f.
  split; [reflexivity |]. split; [exact T |]. split; [reflexivity |].
  rewrite !map_map.
  repeat split; apply map_ext; intro m; unfold userCalculation;
    cbn [unitsUsed energyCost fixedCost totalPayable];
    destruct (F m) as [Hp Hc]; rewrite Hp, Hc; reflexivity.
Qed.

Lemma relabelling_keeps_the_bill_witness :
  totalCollection
    (calculateBillBreakdown exampleConfig exampleMain
       (Dashboard.handleMeterChange "1" (SetName "Flat A") exampleMeters)
       exampleTariff)
  = totalCollection
      (calculateBillBreakdown exampleConfig exampleMain exampleMeters exampleTariff).
Proof.
  apply (relabelling_keeps_the_bill exampleConfig exampleMain exampleMeters
           exampleTariff "1" (SetName "Flat A")).
  left. exists "Flat A"%string. reflexivity.
Defined.

(** X14 - Entering a current reading: after [handleMeterChange] with the key
    [current] and value [v], the row of a meter with that id shows [v] as its
    current reading, keeps its previous reading, and has
    [unitsUsed = max(0, v - previous)]. *)
Theorem new_reading_reaches_the_row (config : BillConfig)
    (mainMeter : MeterReading) (meters : list MeterReading)
    (tariffConfig : TariffConfig) (v : Q) (i : nat) (m : MeterReading) :
  nth_error meters i = Some m ->
  exists uc,
    nth_error
      (userCalculations
         (calculateBillBreakdown config mainMeter
            (Dashboard.handleMeterChange (id m) (SetCurrent v) meters)
            tariffConfig)) i = Some uc /\
    uc_id uc = id m /\
    uc_current uc = v /\
    uc_previous uc = previous m /\
    unitsUsed uc = Math_max 0 (v - previous m).
Proof.
  intro Hi. rewrite calculateBillBreakdown_locals. cbn [userCalculations].
  eexists. split.
  - apply map_nth_error. unfold Dashboard.handleMeterChange.
    rewrite (map_nth_error _ _ _ Hi). rewrite String.eqb_refl. reflexivity.
  - repeat split.
Qed.

Lemma new_reading_reaches_the_row_witness :
  exists uc,
    nth_error
      (userCalculations
         (calculateBillBreakdown exampleConfig exampleMain
            (Dashboard.handleMeterChange "2" (SetCurrent 75) exampleMeters)
            exampleTariff)) 1 = Some uc /\
    uc_id uc = "2"%string /\
    uc_current uc = 75 /\
    uc_previous uc = 0 /\
    unitsUsed uc = Math_max 0 (75 - 0).
Proof.
  apply (new_reading_reaches_the_row exampleConfig exampleMain exampleMeters
           exampleTariff 75 1 (mkMeterReading "2" "User 2" "2" 0 60)).
  reflexivity.
Defined.

(** X15 - [handleConfirmDelete] acts only on a selected meter and a
    confirmation text that reads DELETE once upper-cased; it then hands over
    exactly the meters whose id differs from the selected meter's, so that
    every meter sharing that id goes. *)
Theorem handleConfirmDelete_spec (target : MeterReading) (confirmText : string)
    (meters : list MeterReading) :
  Dashboard.handleConfirmDelete None confirmText meters = None /\
  (toUpperCase confirmText <> "DELETE"%string ->
   Dashboard.handleConfirmDelete (Some target) confirmText meters = None) /\
  (toUpperCase confirmText = "DELETE"%string ->
   exists kept,
     Dashboard.handleConfirmDelete (Some target) confirmText meters = Some kept /\
     (forall m, In m kept <-> In m meters /\ id m <> id target) /\
     (List.length kept <= List.length meters)%nat).
Proof.
  unfold Dashboard.handleConfirmDelete. split; [reflexivity |]. split.
  - intro H. apply String.eqb_neq in H. rewrite H. reflexivity.
  - intro H. apply String.eqb_eq in H. rewrite H. eexists.
    split; [reflexivity |]. split.
    + intro m. rewrite filter_In, negb_true_iff, String.eqb_neq. reflexivity.
    + apply filter_length_le.
Qed.

Lemma handleConfirmDelete_spec_witness :
  exists kept,
    Dashboard.handleConfirmDelete (Some (mkMeterReading "1" "User 1" "1" 0 60))
      "Delete" exampleMeters = Some kept /\
    (forall m, In m kept <-> In m exampleMeters /\ id m <> "1"%string) /\
    (List.length kept <= List.length exampleMeters)%nat.
Proof.
  apply (handleConfirmDelete_spec (mkMeterReading "1" "User 1" "1" 0 60)
           "Delete" exampleMeters).
  reflexivity.
Defined.

Lemma clampedUnits_idle (m : MeterReading) :
  current m <= previous m -> clampedUnits m == 0.
Proof.
  intro H. unfold clampedUnits.
  destruct (Math_max_cases 0 (current m - previous m)) as [[L E] | [L E]];
    rewrite E; lra.
Qed.

Lemma sum_clampedUnits_filter (keep : MeterReading -> bool)
    (meters : list MeterReading) :
  (forall m, In m meters -> keep m = false -> current m <= previous m) ->
  sumQ (map clampedUnits (filter keep meters)) == sumQ (map clampedUnits meters).
Proof.
  induction meters as [| m rest IH]; intro H.
  - reflexivity.
  - cbn [filter map]. rewrite sumQ_cons.
    assert (IH' : sumQ (map clampedUnits (filter keep rest))
                  == sumQ (map clampedUnits rest))
      by (apply IH; intros x Hx; apply H; right; exact Hx).
    destruct (keep m) eqn:K.
    + cbn [map]. rewrite sumQ_cons, IH'. reflexivity.
    + rewrite IH', (clampedUnits_idle m) by (apply H; [left; reflexivity | exact K]).
      ring.
Qed.

Lemma calculatedRate_of_Qeq (mainMeter : MeterReading)
    (meters meters' : list MeterReading) (tariffConfig : TariffConfig) :
  totalSubmeterUnits meters' == totalSubmeterUnits meters ->
  calculatedRate_of mainMeter meters' tariffConfig
  == calculatedRate_of mainMeter meters tariffConfig.
Proof.
  intro T. unfold calculatedRate_of. rewrite (gt0_Qeq _ _ T).
  destruct (gt0 (totalSubmeterUnits meters)); [| reflexivity].
  rewrite T. reflexivity.
Qed.

(** X16 - Deleting a meter that shows no consumption (current not above
    previous) changes neither the total to collect, nor the total units, nor
    the derived rate. *)
Theorem deleting_idle_meter_keeps_rate (config : BillConfig)
    (mainMeter : MeterReading) (meters kept : list MeterReading)
    (tariffConfig : TariffConfig) (target : MeterReading) (confirmText : string) :
  Dashboard.handleConfirmDelete (Some target) confirmText meters = Some kept ->
  (forall m, In m meters -> id m = id target -> current m <= previous m) ->
  let r := calculateBillBreakdown config mainMeter meters tariffConfig in
  let r' := calculateBillBreakdown config mainMeter kept tariffConfig in
  totalCollection r' = totalCollection r /\
  totalUnits r' == totalUnits r /\
  calculatedRate r' == calculatedRate r.
Proof.
  intros Hdel Hidle. cbv zeta. unfold Dashboard.handleConfirmDelete in Hdel.
  destruct (toUpperCase confirmText =? "DELETE")%string; [| discriminate].
  injection Hdel as Hk. subst kept.
  rewrite !calculateBillBreakdown_locals.
  cbn [totalCollection totalUnits calculatedRate].
  set (keep := fun m => negb (id m =? id target)%string).
  assert (T : totalSubmeterUnits (filter keep meters) == totalSubmeterUnits meters).
  { rewrite !totalSubmeterUnits_sum. apply sum_clampedUnits_filter.
    intros m Hin K. apply Hidle; [exact Hin |].
    unfold keep in K. apply negb_false_iff, String.eqb_eq in K. exact K. }
  split; [reflexivity |]. split; [exact T |].
  apply calculatedRate_of_Qeq. exact T.
Qed.

Lemma deleting_idle_meter_keeps_rate_witness :
  calculatedRate
    (calculateBillBreakdown exampleConfig exampleMain exampleMeters exampleTariff)
  == calculatedRate
    (calculateBillBreakdown exampleConfig exampleMain
       (exampleMeters ++ [reversedMeter]) exampleTariff).
Proof.
  apply (deleting_idle_meter_keeps_rate exampleConfig exampleMain
           (exampleMeters ++ [reversedMeter]) exampleMeters exampleTariff
           reversedMeter "DELETE").
  - reflexivity.
  - intros m [E | [E | [E | []]]] Hid; subst m;
      try (vm_compute in Hid; discriminate Hid).
    vm_compute. discriminate.
Defined.



(** * Rolling over to the next month *)

Lemma rollOver_idle (m : MeterReading) :
  current (rollOver m) <= previous (rollOver m).
Proof. cbn. lra. Qed.

Lemma sum_clampedUnits_idle (meters : list MeterReading) :
  Forall (fun m => current m <= previous m) meters ->
  sumQ (map clampedUnits meters) == 0.
Proof.
  induction 1 as [| m rest Hm _ IH].
  - reflexivity.
  - cbn [map]. rewrite sumQ_cons, IH, (clampedUnits_idle m Hm). ring.
Qed.

(** X18 - After a confirmed [handleNextMonth] every meter starts from its
    last reading (previous = current, current kept).  The bill of the new
    state therefore has no units, a derived rate of 0, no energy cost in any
    row and no distributed VAT, and its total is the fixed base with its VAT
    and the fees.  A declined confirmation changes nothing. *)
Theorem handleNextMonth_resets_consumption (today : string) (st : AppState) :
  let st' := handleNextMonth true today st in
  let r' :=
    calculateBillBreakdown (st_config st') (st_mainMeter st') (st_meters st')
      (st_tariffConfig st') in
  handleNextMonth false today st = st /\
  previous (st_mainMeter st') = current (st_mainMeter st) /\
  current (st_mainMeter st') = current (st_mainMeter st) /\
  map previous (st_meters st') = map current (st_meters st) /\
  map current (st_meters st') = map current (st_meters st) /\
  st_history st' = st_history st /\
  totalUnits r' == 0 /\
  calculatedRate r' = 0 /\
  Forall (fun uc => unitsUsed uc == 0 /\ energyCost uc == 0) (userCalculations r') /\
  vatDistributed r' == 0 /\
  totalCollection r'
    == fixedBase (st_tariffConfig st) + vatFixed r' + lateFee r'
       + bkash (st_config st') (st_tariffConfig st).
Proof.
  cbv zeta. unfold handleNextMonth.
  cbn [st_config st_mainMeter st_meters st_history st_tariffConfig].
  set (cfg := mkBillConfig _ _ _ _ _).
  assert (Idle : Forall (fun m => current m <= previous m)
                   (map rollOver (st_meters st))).
  { apply Forall_forall. intros m Hin. apply in_map_iff in Hin.
    destruct Hin as [x [E _]]. subst m. apply rollOver_idle. }
  assert (T : totalSubmeterUnits (map rollOver (st_meters st)) == 0)
    by (rewrite totalSubmeterUnits_sum; apply sum_clampedUnits_idle; exact Idle).
  assert (M : mainUnits (rollOver (st_mainMeter st)) <= 0).
  { unfold mainUnits.
    destruct (Math_max_cases 0 (current (rollOver (st_mainMeter st))
                                - previous (rollOver (st_mainMeter st))))
      as [[L E] | [L E]]; rewrite E; cbn in *; lra. }
  assert (E0 : energyCostBase (rollOver (st_mainMeter st)) (st_tariffConfig st) = 0)
    by (apply calculateEnergyCost_0; exact M).
  assert (R : calculatedRate_of (rollOver (st_mainMeter st))
                (map rollOver (st_meters st)) (st_tariffConfig st) = 0).
  { unfold calculatedRate_of.
    assert (G : gt0 (totalSubmeterUnits (map rollOver (st_meters st))) = false)
      by (apply gt0_false; rewrite T; lra).
    rewrite G. reflexivity. }
  rewrite calculateBillBreakdown_locals.
  cbn [totalUnits calculatedRate userCalculations vatDistributed totalCollection
       vatFixed lateFee].
  split; [reflexivity |]. split; [reflexivity |]. split; [reflexivity |].
  split; [rewrite map_map; reflexivity |].
  split; [rewrite map_map; reflexivity |].
  split; [reflexivity |]. split; [exact T |]. split; [exact R |]. split; [| split].
  - rewrite R. apply Forall_forall. intros uc Hin. apply in_map_iff in Hin.
    destruct Hin as [m [E Hm]]. subst uc. unfold userCalculation.
    cbn [unitsUsed energyCost]. split; [| ring].
    rewrite Forall_forall in Idle. apply (clampedUnits_idle m), Idle, Hm.
  - rewrite vatDistributed_of_energy, E0. ring.
  - unfold totalBillCalculated, taxableBase, lateFee_of, vatTotal_of, taxableBase,
      vatFixed_of. rewrite E0. destruct (includeLateFee cfg); ring.
Qed.

Lemma indexOfFrom_absent (x : string) (xs : list string) (i : Z) :
  ~ In x xs -> indexOfFrom i x xs = (-1)%Z.
Proof.
  revert i. induction xs as [| y rest IH]; intros i H.
  - reflexivity.
  - cbn [indexOfFrom].
    assert (E : (y =? x)%string = false).
    { apply String.eqb_neq. intro K. apply H. left. exact K. }
    rewrite E. apply IH. intro K. apply H. right. exact K.
Qed.

(** X19 - The month of the roll-over: a month of the calendar is followed by
    the next one, December by January; a month name that is not in the list
    (indexOf gives -1) is followed by January; the result is always a
    calendar month, and twelve roll-overs bring a calendar month back. *)
Theorem nextMonth_cycle (m : string) :
  In (nextMonthOf m) monthNames /\
  (~ In m monthNames -> nextMonthOf m = "January"%string) /\
  (forall i : nat, (i < 11)%nat ->
     nextMonthOf (nth i monthNames ""%string) = nth (S i) monthNames ""%string) /\
  nextMonthOf "December" = "January"%string /\
  (In m monthNames -> Nat.iter 12 nextMonthOf m = m).
Proof.
  assert (A : ~ In m monthNames -> nextMonthOf m = "January"%string).
  { intro H. unfold nextMonthOf, indexOf.
    rewrite (indexOfFrom_absent m monthNames 0 H). reflexivity. }
  assert (B : In m monthNames -> In (nextMonthOf m) monthNames
                                 /\ Nat.iter 12 nextMonthOf m = m).
  { intro H. cbn [monthNames In] in H.
    repeat (destruct H as [H | H]; [subst m; split; vm_compute; tauto |]).
    contradiction. }
  split; [| split; [exact A | split; [| split]]].
  - destruct (in_dec string_dec m monthNames) as [H | H].
    + apply B. exact H.
    + rewrite (A H). vm_compute. tauto.
  - intros i Hi.
    do 11 (destruct i as [| i]; [reflexivity |]). exfalso. lia.
  - reflexivity.
  - intro H. apply B. exact H.
Qed.

Lemma nextMonth_cycle_witness :
  nextMonthOf "Smarch" = "January"%string.
Proof.
  destruct (nextMonth_cycle "Smarch") as [_ [Absent _]].
  apply Absent.
  intro H. cbn [monthNames In] in H.
  repeat (destruct H as [H | H]; [discriminate H |]). exact H.
Defined.

(** * The bill history *)

Lemma sortInsert_Permutation {A : Type} (cmp : A -> A -> Q) (x : A) (xs : list A) :
  Permutation (sortInsert cmp x xs) (x :: xs).
Proof.
  induction xs as [| y rest IH].
  - apply Permutation_refl.
  - cbn [sortInsert]. destruct (gt0 (cmp x y)).
    + apply Permutation_trans with (y :: x :: rest).
      * apply perm_skip. exact IH.
      * apply perm_swap.
    + apply Permutation_refl.
Qed.

Lemma Array_sort_Permutation {A : Type} (cmp : A -> A -> Q) (xs : list A) :
  Permutation (Array_sort cmp xs) xs.
Proof.
  induction xs as [| x rest IH].
  - apply Permutation_refl.
  - cbn [Array_sort fold_right]. fold (Array_sort cmp rest).
    apply Permutation_trans with (x :: Array_sort cmp rest).
    + apply sortInsert_Permutation.
    + apply perm_skip. exact IH.
Qed.

(** X20 - Saving a bill loses nothing: whatever the two host comparisons
    return, the new history is a rearrangement of the new record put in front
    of the old history; the new record carries the total to collect of the
    current bill as [totalBillPayable], and the draft (configuration and
    readings) is left as it is. *)
Theorem saveToHistory_keeps_every_bill
    (localeCompare : string -> string -> Z) (getTime : string -> Q)
    (nowId nowIso : string) (st : AppState) :
  let st' := saveToHistory localeCompare getTime nowId nowIso st in
  exists newRecord,
    Permutation (st_history st') (newRecord :: st_history st) /\
    List.length (st_history st') = S (List.length (st_history st)) /\
    In newRecord (st_history st') /\
    (forall h, In h (st_history st) -> In h (st_history st')) /\
    sb_id newRecord = nowId /\ savedAt newRecord = nowIso /\
    sb_mainMeter newRecord = st_mainMeter st /\
    sb_meters newRecord = st_meters st /\
    totalBillPayable (sb_config newRecord)
    = totalCollection
        (calculateBillBreakdown (st_config st) (st_mainMeter st) (st_meters st)
           (st_tariffConfig st)) /\
    st_config st' = st_config st /\
    st_mainMeter st' = st_mainMeter st /\
    st_meters st' = st_meters st.
Proof.
  cbv zeta. unfold saveToHistory. cbv zeta. cbn [st_history st_config
    st_mainMeter st_meters].
  eexists.
  assert (P : forall l, Permutation (sortBills localeCompare getTime l) l)
    by (intro l; apply Array_sort_Permutation).
  split; [apply P |].
  split; [rewrite (Permutation_length (P _)); reflexivity |].
  split; [apply (Permutation_in _ (Permutation_sym (P _))); left; reflexivity |].
  split; [intros h Hh; apply (Permutation_in _ (Permutation_sym (P _)));
          right; exact Hh |].
  repeat split.
Qed.

(** X21 - Save, then load the saved record: the readings come back as they
    were, the bill computed from the loaded state is the bill that was saved,
    and the loaded configuration's [totalBillPayable] is that bill's total to
    collect. *)
Theorem save_then_load_round_trip
    (localeCompare : string -> string -> Z) (getTime : string -> Q)
    (nowId nowIso : string) (st : AppState) :
  let st1 := saveToHistory localeCompare getTime nowId nowIso st in
  exists record,
    In record (st_history st1) /\
    sb_id record = nowId /\
    let st2 := loadFromHistory true record st1 in
    st_mainMeter st2 = st_mainMeter st /\
    st_meters st2 = st_meters st /\
    st_history st2 = st_history st1 /\
    calculateBillBreakdown (st_config st2) (st_mainMeter st2) (st_meters st2)
      (st_tariffConfig st2)
    = calculateBillBreakdown (st_config st) (st_mainMeter st) (st_meters st)
        (st_tariffConfig st) /\
    totalBillPayable (st_config st2)
    = totalCollection
        (calculateBillBreakdown (st_config st2) (st_mainMeter st2) (st_meters st2)
           (st_tariffConfig st2)).
Proof.
  cbv zeta. unfold saveToHistory, loadFromHistory. cbv zeta.
  cbn [st_history st_config st_mainMeter st_meters st_tariffConfig].
  eexists. split.
  - apply (Permutation_in _ (Permutation_sym (Array_sort_Permutation _ _))).
    left. reflexivity.
  - cbn [sb_id sb_config sb_mainMeter sb_meters]. repeat split.
Qed.

(** X22 - Deleting from the history by id removes every record with that id
    and nothing else; an id that no record carries leaves the history as it
    is; the draft is not touched. *)
Theorem deleteBill_spec (id_ : string) (st : AppState) :
  (forall h, In h (st_history (deleteBill id_ st))
             <-> In h (st_history st) /\ sb_id h <> id_) /\
  ((forall h, In h (st_history st) -> sb_id h <> id_) ->
   st_history (deleteBill id_ st) = st_history st) /\
  (List.length (st_history (deleteBill id_ st)) <= List.length (st_history st))%nat /\
  st_config (deleteBill id_ st) = st_config st /\
  st_mainMeter (deleteBill id_ st) = st_mainMeter st /\
  st_meters (deleteBill id_ st) = st_meters st.
Proof.
  unfold deleteBill. cbn [st_history st_config st_mainMeter st_meters].
  split; [| split; [| split; [apply filter_length_le | repeat split]]].
  - intro h. rewrite filter_In, negb_true_iff, String.eqb_neq. reflexivity.
  - intro H. induction (st_history st) as [| h rest IH]; [reflexivity |].
    cbn [filter].
    assert (E : (sb_id h =? id_)%string = false)
      by (apply String.eqb_neq, H; left; reflexivity).
    rewrite E. cbn [negb]. rewrite IH by (intros x Hx; apply H; right; exact Hx).
    reflexivity.
Qed.

(** * The trends view *)

Lemma TrendsDashboard_calculateEnergyCost_eq (units : Q) (ss : list Slab) :
  TrendsDashboard.calculateEnergyCost units ss = calculateEnergyCost units ss.
Proof.
  unfold TrendsDashboard.calculateEnergyCost.
  rewrite TrendsDashboard_loop_slabLoop. reflexivity.
Qed.

Lemma getProp_setOwnProp_same (k : string) (v : JsValue) (o : JsObject) :
  getProp k (setOwnProp k v o) = Some v.
Proof.
  induction o as [| [k' v'] rest IH].
  - cbn. rewrite String.eqb_refl. reflexivity.
  - cbn [setOwnProp]. destruct (k' =? k)%string eqn:E.
    + cbn [getProp]. rewrite String.eqb_refl. reflexivity.
    + cbn [getProp]. rewrite E. exact IH.
Qed.


Lemma getProp_setProp_same (k : string) (v : JsValue) (o : JsObject) :
  k <> "__proto__"%string -> getProp k (setProp k v o) = Some v.
Proof.
  intro H. unfold setProp. apply String.eqb_neq in H. rewrite H.
  apply getProp_setOwnProp_same.
Qed.





(** The running sum of the second [forEach] of [chartData]. *)
Lemma chartMeter_sum (rate_ fixed_ : Q) (meters : list MeterReading)
    (dp : JsObject) (acc : Q) :
  snd (fold_left (TrendsChart.chartMeter rate_ fixed_) meters (dp, acc))
  == acc + sumQ (map (fun uc => Math_round (totalPayable uc))
                   (map (userCalculation rate_ fixed_) meters)).
Proof.
  revert dp acc. induction meters as [| m rest IH]; intros dp acc.
  - cbn. ring.
  - cbn [fold_left map]. unfold TrendsChart.chartMeter at 2. cbv zeta.
    rewrite IH, sumQ_cons. unfold userCalculation at 2. cbn [totalPayable]. ring.
Qed.


(** The rate and the fixed share of [chartData] are the engine's. *)
Lemma chartPoint_unfold (tariffConfig : TariffConfig) (bill : SavedBill) :
  TrendsChart.chartPoint tariffConfig bill =
  let acc :=
    fold_left
      (TrendsChart.chartMeter
         (calculatedRate_of (sb_mainMeter bill) (sb_meters bill) tariffConfig)
         (fixedCostPerUser (sb_config bill) (sb_mainMeter bill) (sb_meters bill)
            tariffConfig))
      (sb_meters bill)
      ([("name", JsString (substring 0 3 (month (sb_config bill))));
        ("fullMonth", JsString (month (sb_config bill)));
        ("amount", JsNumber (totalBillPayable (sb_config bill)));
        ("date", JsString (dateGenerated (sb_config bill)));
        ("monthTotal", JsNumber 0)]%string, 0) in
  setProp "monthTotal" (JsNumber (snd acc)) (fst acc).
Proof.
  unfold TrendsChart.chartPoint. cbv zeta.
  rewrite TrendsDashboard_calculateEnergyCost_eq.
  match goal with
  | |- (let '(_, _) := ?f in _) = setProp _ (JsNumber (snd ?g)) (fst ?g) =>
      change f with g; destruct g as [dp s]
  end.
  reflexivity.
Qed.

(** X23 - The [monthTotal] of a chart point is the sum of the rounded
    payables of the bill the engine computes for the saved record; it is
    written last, so that a meter named monthTotal cannot displace it. *)
Theorem chart_monthTotal (tariffConfig : TariffConfig) (bill : SavedBill) :
  exists q,
    getProp "monthTotal" (TrendsChart.chartPoint tariffConfig bill)
    = Some (JsNumber q) /\
    q == sumRoundedPayable
           (calculateBillBreakdown (sb_config bill) (sb_mainMeter bill)
              (sb_meters bill) tariffConfig).
Proof.
  rewrite chartPoint_unfold. cbv zeta. eexists. split.
  - apply getProp_setProp_same. discriminate.
  - rewrite chartMeter_sum, calculateBillBreakdown_locals.
    unfold sumRoundedPayable. cbn [userCalculations]. ring.
Qed.

Lemma Math_round_bounds (x : Q) :
  x - (1 # 2) < Math_round x /\ Math_round x <= x + (1 # 2).
Proof.
  unfold Math_round.
  pose proof (Qfloor_le (x + (1 # 2))) as L.
  pose proof (Qlt_floor (x + (1 # 2))) as U.
  rewrite inject_Z_plus in U. change (inject_Z 1) with 1 in U.
  split; lra.
Qed.

Lemma sum_round_bounds {A : Type} (f : A -> Q) (xs : list A) :
  sumQ (map f xs) - length_num xs * (1 # 2)
  <= sumQ (map (fun x => Math_round (f x)) xs) /\
  sumQ (map (fun x => Math_round (f x)) xs)
  <= sumQ (map f xs) + length_num xs * (1 # 2).
Proof.
  induction xs as [| x rest [IH1 IH2]].
  - change (0 - 0 * (1 # 2) <= 0 /\ 0 <= 0 + 0 * (1 # 2)). split; lra.
  - cbn [map]. rewrite !sumQ_cons, length_num_cons.
    destruct (Math_round_bounds (f x)) as [B1 B2]. split; lra.
Qed.

(** The payables reconcile with the total when some consumption is metered
    (the statement shared by the views that add the rows up again). *)
Lemma payables_reconcile (config : BillConfig)
    (mainMeter : MeterReading) (meters : list MeterReading)
    (tariffConfig : TariffConfig) :
  0 < totalUnits (calculateBillBreakdown config mainMeter meters tariffConfig) ->
  sumTotalPayable (calculateBillBreakdown config mainMeter meters tariffConfig)
  == totalCollection (calculateBillBreakdown config mainMeter meters tariffConfig).
Proof.
  intro Hpos.
  assert (Hne : meters <> []).
  { apply totalSubmeterUnits_pos_nonempty.
    rewrite calculateBillBreakdown_locals in Hpos. exact Hpos. }
  rewrite sumTotalPayable_nonempty by exact Hne.
  rewrite calculateBillBreakdown_locals in *. cbn [totalUnits totalCollection] in *.
  rewrite totalBillCalculated_pools. unfold calculatedRate_of.
  assert (G : gt0 (totalSubmeterUnits meters) = true) by (apply gt0_true; exact Hpos).
  rewrite G, rate_times_units by exact Hpos. reflexivity.
Qed.

(** X24 - In exact arithmetic (the rounding of the doubles aside, [Math.round]
    being the only rounding), rounding each payable to the nearest integer, as
    the trends view does before adding them up, moves the sum away from the
    total to collect by at most half a unit per sub-meter (when some
    consumption is metered); each rounded payable is within one half of the
    exact one. *)
Theorem rounded_total_within_half_per_meter (config : BillConfig)
    (mainMeter : MeterReading) (meters : list MeterReading)
    (tariffConfig : TariffConfig) :
  0 < totalUnits (calculateBillBreakdown config mainMeter meters tariffConfig) ->
  let r := calculateBillBreakdown config mainMeter meters tariffConfig in
  totalCollection r - length_num meters * (1 # 2) <= sumRoundedPayable r /\
  sumRoundedPayable r <= totalCollection r + length_num meters * (1 # 2) /\
  Forall (fun uc =>
            totalPayable uc - (1 # 2) < Math_round (totalPayable uc) /\
            Math_round (totalPayable uc) <= totalPayable uc + (1 # 2))
         (userCalculations r).
Proof.
  intro Hpos. cbv zeta.
  pose proof (payables_reconcile config mainMeter meters tariffConfig Hpos) as S.
  destruct (sum_round_bounds totalPayable
              (userCalculations
                 (calculateBillBreakdown config mainMeter meters tariffConfig)))
    as [B1 B2].
  fold (sumTotalPayable (calculateBillBreakdown config mainMeter meters tariffConfig))
    in B1, B2.
  fold (sumRoundedPayable (calculateBillBreakdown config mainMeter meters tariffConfig))
    in B1, B2.
  assert (L : length_num
                (userCalculations
                   (calculateBillBreakdown config mainMeter meters tariffConfig))
              = length_num meters).
  { rewrite calculateBillBreakdown_locals. cbn [userCalculations].
    unfold length_num. rewrite length_map. reflexivity. }
  rewrite L, S in B1, B2.
  split; [exact B1 |]. split; [exact B2 |].
  apply Forall_forall. intros uc _. apply Math_round_bounds.
Qed.

Lemma rounded_total_within_half_per_meter_witness :
  let r :=
    calculateBillBreakdown exampleConfig exampleMain exampleMeters exampleTariff in
  totalCollection r - length_num exampleMeters * (1 # 2) <= sumRoundedPayable r /\
  sumRoundedPayable r <= totalCollection r + length_num exampleMeters * (1 # 2) /\
  Forall (fun uc =>
            totalPayable uc - (1 # 2) < Math_round (totalPayable uc) /\
            Math_round (totalPayable uc) <= totalPayable uc + (1 # 2))
         (userCalculations r).
Proof.
  apply (rounded_total_within_half_per_meter exampleConfig exampleMain
           exampleMeters exampleTariff).
  vm_compute. reflexivity.
Defined.




Lemma Set_add_In (users : list string) (x y : string) :
  In y (Set_add users x) <-> In y users \/ y = x.
Proof.
  unfold Set_add. destruct (existsb (String.eqb x) users) eqn:E.
  - split; [intro H; left; exact H |].
    intros [H | H]; [exact H |]. subst y.
    apply existsb_exists in E. destruct E as [z [Hz Ez]].
    apply String.eqb_eq in Ez. subst z. exact Hz.
  - rewrite in_app_iff. cbn [In]. split.
    + intros [H | [H | []]]; [left; exact H | right; symmetry; exact H].
    + intros [H | H]; [left; exact H | right; left; symmetry; exact H].
Qed.

Lemma Set_add_NoDup (users : list string) (x : string) :
  NoDup users -> NoDup (Set_add users x).
Proof.
  intro H. unfold Set_add. destruct (existsb (String.eqb x) users) eqn:E.
  - exact H.
  - apply NoDup_app; [exact H | repeat constructor; intros [] |].
    intros y Hy [Ey | []]. subst y.
    assert (K : existsb (String.eqb x) users = true).
    { apply existsb_exists. exists x. split; [exact Hy | apply String.eqb_refl]. }
    rewrite K in E. discriminate E.
Qed.

Lemma add_names_spec (meters : list MeterReading) (users : list string) :
  let users' := fold_left (fun us m => Set_add us (name m)) meters users in
  (NoDup users -> NoDup users') /\
  (forall y, In y users' <-> In y users \/ exists m, In m meters /\ name m = y).
Proof.
  cbv zeta. revert users. induction meters as [| m rest IH]; intro users.
  - cbn. split; [auto |]. intro y. split; [auto |].
    intros [H | [m [[] _]]]. exact H.
  - cbn [fold_left]. destruct (IH (Set_add users (name m))) as [IH1 IH2].
    split.
    + intro H. apply IH1, Set_add_NoDup, H.
    + intro y. rewrite IH2, Set_add_In. split.
      * intros [[H | H] | [x [Hx Ex]]].
        -- left. exact H.
        -- right. exists m. split; [left; reflexivity | symmetry; exact H].
        -- right. exists x. split; [right; exact Hx | exact Ex].
      * intros [H | [x [[Hx | Hx] Ex]]].
        -- left. left. exact H.
        -- subst x. left. right. symmetry. exact Ex.
        -- right. exists x. split; assumption.
Qed.

Lemma uniqueUsers_from (history : list SavedBill) (users : list string) :
  let users' :=
    fold_left
      (fun us bill => fold_left (fun us m => Set_add us (name m))
                        (sb_meters bill) us)
      history users in
  (NoDup users -> NoDup users') /\
  (forall y, In y users' <->
     In y users \/
     exists bill m, In bill history /\ In m (sb_meters bill) /\ name m = y).
Proof.
  cbv zeta. revert users. induction history as [| bill rest IH]; intro users.
  - cbn. split; [auto |]. intro y. split; [auto |].
    intros [H | [b [m [[] _]]]]. exact H.
  - cbn [fold_left].
    destruct (add_names_spec (sb_meters bill) users) as [A1 A2].
    destruct (IH (fold_left (fun us m => Set_add us (name m)) (sb_meters bill) users))
      as [IH1 IH2].
    split.
    + intro H. apply IH1, A1, H.
    + intro y. rewrite IH2, A2. split.
      * intros [[H | [m [Hm Em]]] | [b [m [Hb [Hm Em]]]]].
        -- left. exact H.
        -- right. exists bill, m. split; [left; reflexivity | split; assumption].
        -- right. exists b, m. split; [right; exact Hb | split; assumption].
      * intros [H | [b [m [[Hb | Hb] [Hm Em]]]]].
        -- left. left. exact H.
        -- subst b. left. right. exists m. split; assumption.
        -- right. exists b, m. split; [exact Hb | split; assumption].
Qed.

(** X26 - [uniqueUsers] lists every meter name that occurs in some saved
    bill, each exactly once, and nothing else. *)
Theorem uniqueUsers_spec (history : list SavedBill) :
  NoDup (TrendsChart.uniqueUsers history) /\
  (forall y, In y (TrendsChart.uniqueUsers history) <->
     exists bill m, In bill history /\ In m (sb_meters bill) /\ name m = y).
Proof.
  unfold TrendsChart.uniqueUsers.
  destruct (uniqueUsers_from history []) as [U1 U2]. split.
  - apply U1. constructor.
  - intro y. rewrite U2. split; [intros [[] | H]; exact H | intro H; right; exact H].
Qed.

Lemma deleteBill_spec_witness :
  st_history
    (deleteBill "42"
       (mkAppState exampleConfig exampleMain exampleMeters
          [mkSavedBill "7" "2024-01-31T00:00:00.000Z" exampleConfig exampleMain
             exampleMeters]
          exampleTariff ViewHistory))
  = [mkSavedBill "7" "2024-01-31T00:00:00.000Z" exampleConfig exampleMain
       exampleMeters].
Proof.
  destruct (deleteBill_spec "42"
              (mkAppState exampleConfig exampleMain exampleMeters
                 [mkSavedBill "7" "2024-01-31T00:00:00.000Z" exampleConfig
                    exampleMain exampleMeters]
                 exampleTariff ViewHistory)) as [_ [Absent _]].
  apply Absent.
  intros h [E | []]. subst h. cbn. discriminate.
Defined.
